(** * Willow Application Server: the device session and the command endpoint

    A shallow embedding of [app/main.py] (the [/ws] route, [hex_mac]) and of
    [app/internal/command_endpoints/main.py] ([init_command_endpoint]),
    with the properties the design document states about them. *)

From Stdlib Require Import ZArith NArith String Ascii List.
From Stdlib Require Import HexadecimalString.
From Corelib Require Import PrimFloat.
From stdpp Require Import base option list gmap strings.

Set Warnings "-register-all".

Local Open Scope Z_scope.
Local Open Scope string_scope.
Local Open Scope list_scope.

(** ** Values decoded from a message body

    [json.loads] yields dictionaries, lists, strings, numbers, booleans and
    [None]; a Python float is a binary64 value. *)

Inductive json : Type :=
| JNull
| JBool (b : bool)
| JInt (z : Z)
| JFloat (f : float)
| JStr (s : string)
| JList (l : list json)
| JObj (m : gmap string json).

(** ** Exceptions

    The subclasses of [Exception] that the two files raise or catch.  What
    is not an [Exception] (the cancellation of the task at an [await],
    [asyncio.CancelledError]) is no value of this type: [except Exception]
    does not catch it, and no statement below speaks of it. *)

Inductive exn : Type :=
| WebSocketDisconnect
| ConnectionClosed
| CommandEndpointRuntimeException (cause : string)
| JSONDecodeError
| KeyError (key : string)
| IndexError
| TypeError
| AttributeError
| OtherException (what : string).

(** The two [except] clauses of the route that run the disconnect path. *)
Definition is_transport (e : exn) : bool :=
  match e with
  | WebSocketDisconnect | ConnectionClosed => true
  | _ => false
  end.

(** A computation that returns or raises. *)
Definition result (A : Type) : Type := exn + A.
Abbreviation Ok := (@inr exn _).
Abbreviation Raise := (@inl exn _).

(** ** The Python operators the route applies to decoded values *)

Fixpoint is_prefix (p s : string) : bool :=
  match p, s with
  | EmptyString, _ => true
  | String a p', String b s' => if Ascii.eqb a b then is_prefix p' s' else false
  | String _ _, EmptyString => false
  end.

Fixpoint is_substring (p s : string) : bool :=
  is_prefix p s ||
  match s with
  | EmptyString => false
  | String _ s' => is_substring p s'
  end.

Definition is_the_string (key : string) (v : json) : bool :=
  match v with
  | JStr s => String.eqb s key
  | _ => false
  end.

(** [key in v] for a string [key]: key membership on a dict, element
    membership on a list, substring test on a string, [TypeError] on the
    rest. *)
Definition py_in (key : string) (v : json) : result bool :=
  match v with
  | JObj m => Ok (bool_decide (is_Some (m !! key)))
  | JList l => Ok (existsb (is_the_string key) l)
  | JStr s => Ok (is_substring key s)
  | _ => Raise TypeError
  end.

(** [v[key]] for a string [key]. *)
Definition py_getitem (v : json) (key : string) : result json :=
  match v with
  | JObj m => match m !! key with
              | Some x => Ok x
              | None => Raise (KeyError key)
              end
  | _ => Raise TypeError
  end.

(** [v == s] for a string literal [s]. *)
Definition py_eq_str (v : json) (s : string) : bool := is_the_string s v.

(** Truth value of a decoded value, as [if v:] takes it. *)
Definition py_truthy (v : json) : bool :=
  match v with
  | JNull => false
  | JBool b => b
  | JInt z => negb (Z.eqb z 0)
  | JFloat f => negb (PrimFloat.is_zero f)
  | JStr s => negb (String.eqb s "")
  | JList l => match l with [] => false | _ => true end
  | JObj m => negb (bool_decide (m = ∅))
  end.

(** The attributes of a [dict] object: what [hasattr(d, name)] finds.
    The keys stored in the dictionary are not attributes. *)
Definition dict_attributes : list string :=
  [ "__class__"; "__class_getitem__"; "__contains__"; "__delattr__";
    "__delitem__"; "__dir__"; "__doc__"; "__eq__"; "__format__"; "__ge__";
    "__getattribute__"; "__getitem__"; "__getstate__"; "__gt__"; "__hash__";
    "__init__"; "__init_subclass__"; "__ior__"; "__iter__"; "__le__";
    "__len__"; "__lt__"; "__ne__"; "__new__"; "__or__"; "__reduce__";
    "__reduce_ex__"; "__repr__"; "__reversed__"; "__ror__"; "__setattr__";
    "__setitem__"; "__sizeof__"; "__str__"; "__subclasshook__"; "clear";
    "copy"; "fromkeys"; "get"; "items"; "keys"; "pop"; "popitem";
    "setdefault"; "update"; "values" ].

Definition py_hasattr_dict (d : gmap string json) (name : string) : bool :=
  existsb (String.eqb name) dict_attributes.

(** [str.upper] on ASCII text: the letters a-z are mapped, the other
    characters are kept.  On other text Python's [str.upper] follows the
    Unicode case mapping, so the route takes [str.upper] from outside (see
    [Backend]); this one serves the backends of the examples, whose
    hardware tags are ASCII. *)
Definition upper_ascii (c : ascii) : ascii :=
  let n := nat_of_ascii c in
  if ((97 <=? n) && (n <=? 122))%nat then ascii_of_nat (n - 32) else c.

Fixpoint upper (s : string) : string :=
  match s with
  | EmptyString => EmptyString
  | String c s' => String (upper_ascii c) (upper s')
  end.

(** [v.upper()]: only a string has the method, [str_upper] being what the
    method computes. *)
Definition py_upper (str_upper : string → string) (v : json) : result json :=
  match v with
  | JStr s => Ok (JStr (str_upper s))
  | _ => Raise AttributeError
  end.

(** ** [hex_mac] *)

Definition hex_of_N (n : N) : string :=
  NilZero.string_of_uint (N.to_hex_uint n).

Fixpoint zeros (k : nat) : string :=
  match k with
  | O => ""
  | S k' => String "0" (zeros k')
  end.

(** Left padding with zeros to a minimal width. *)
Definition zero_pad (width : nat) (digits : string) : string :=
  (zeros (width - String.length digits) ++ digits)%string.

(** ['%02x' % z]: the sign counts in the width of two. *)
Definition fmt_02x (z : Z) : string :=
  if Z.ltb z 0 then ("-" ++ zero_pad 1 (hex_of_N (Z.abs_N z)))%string
  else zero_pad 2 (hex_of_N (Z.to_N z)).

(** ['%02x' % v]: an integer is required, and a [bool] is one. *)
Definition py_fmt_02x (v : json) : result string :=
  match v with
  | JInt z => Ok (fmt_02x z)
  | JBool b => Ok (fmt_02x (if b then 1 else 0))
  | _ => Raise TypeError
  end.

#[global] Instance result_bind : MBind result :=
  λ A B f r, match r with inl e => inl e | inr a => f a end.
#[global] Instance result_ret : MRet result := λ A a, inr a.

(** [mac[i]] on a list. *)
Definition py_index (l : list json) (i : nat) : result json :=
  match l !! i with
  | Some x => Ok x
  | None => Raise IndexError
  end.

Definition hex_mac (mac : json) : result json :=
  match mac with
  | JList l =>
      m0 ← py_index l 0; m1 ← py_index l 1; m2 ← py_index l 2;
      m3 ← py_index l 3; m4 ← py_index l 4; m5 ← py_index l 5;
      h0 ← py_fmt_02x m0; h1 ← py_fmt_02x m1; h2 ← py_fmt_02x m2;
      h3 ← py_fmt_02x m3; h4 ← py_fmt_02x m4; h5 ← py_fmt_02x m5;
      Ok (JStr (h0 ++ ":" ++ h1 ++ ":" ++ h2 ++ ":" ++ h3 ++ ":" ++ h4
                   ++ ":" ++ h5)%string)
  | _ => Ok mac
  end.

(** ** Data model *)

(** A websocket object, by identity. *)
Abbreviation handle := nat.

(** Modelled from the spec: the [Client] class of [app/internal/client.py]
    is missing.  A Connection has a user-agent string and the optional
    hostname, platform and MAC address set by the device. *)
Record Client : Type := mkClient {
  ua : option string;
  hostname : option json;
  platform : option json;
  mac_addr : option json
}.

(** Modelled from the spec: [Client(ua=user_agent)], the constructor of
    the missing class; the fields the device has not set are unset. *)
Definition new_client (user_agent : option string) : Client :=
  mkClient user_agent None None None.

(** Modelled from the spec: the [WakeEvent] and [WakeSession] classes of
    [app/internal/wake.py] are missing.  A WakeEvent has the originating
    connection and a volume; a WakeSession has an ordered sequence of
    WakeEvents and a status, Open ([done = false]) or Done. *)
Record WakeEvent : Type := mkWakeEvent {
  we_client : handle;
  we_volume : json
}.

(** Modelled from the spec: the missing [WakeSession] class, with its
    ordered events and its status. *)
Record WakeSession : Type := mkWakeSession {
  events : list WakeEvent;
  done : bool
}.

(** Modelled from the spec: [WakeSession()], the constructor of the
    missing class; a session starts Open with no event. *)
Definition new_wake_session : WakeSession := mkWakeSession [] false.

(** Modelled from the spec: [WakeSession.add_event] appends to the ordered
    sequence. *)
Definition add_event (ev : WakeEvent) (w : WakeSession) : WakeSession :=
  mkWakeSession (events w ++ [ev]) (done w).

(** Modelled from the spec: when the cleanup of a session fires, the session
    becomes Done. *)
Definition cleanup (w : WakeSession) : WakeSession :=
  mkWakeSession (events w) true.

(** Modelled from the spec: the adapters of [app/internal/command_endpoints]
    are missing.  Each one is kept by the configuration it was built from
    (CommandEndpointConfig); a field left at its default is [None]. *)
Record MqttConfig : Type := mkMqttConfig {
  mqtt_auth_type : option json;
  mqtt_hostname : option json;
  mqtt_port : option json;
  mqtt_tls : option json;
  mqtt_topic : option json;
  mqtt_password : option json;
  mqtt_username : option json
}.

(** Modelled from the spec: the configuration object of the missing
    [RestEndpoint] (HttpPullGeneric: authType and the optional header, user
    and password); the base URL is kept by the adapter. *)
Record RestConfig : Type := mkRestConfig {
  rest_auth_type : option json;
  rest_auth_header : option json;
  rest_auth_pass : option json;
  rest_auth_user : option json
}.

(** Modelled from the spec: the four missing adapter classes, by the
    arguments of their constructors in [init_command_endpoint]. *)
Inductive Endpoint : Type :=
| HomeAssistantWebSocketEndpoint (host port tls token : json)
| MqttEndpoint (mqtt_config : MqttConfig)
| OpenhabEndpoint (url token : json)
| RestEndpoint (url : json) (config : RestConfig).

(** Modelled from the spec: the missing [CommandEndpointResult] class, a
    speech result; built as [CommandEndpointResult(speech=...)]. *)
Record CommandEndpointResult : Type := mkResult { speech : string }.

(** Modelled from the spec: the missing [CommandEndpointResponse] class,
    built as [CommandEndpointResponse(result=...)]. *)
Record CommandEndpointResponse : Type := mkResponse {
  response_result : CommandEndpointResult
}.

(** What [websocket.send_text] is given: the text an adapter returned, the
    JSON dump of a response, or the [config] message that the missing
    [build_msg] makes of the stored configuration. *)
Inductive outmsg : Type :=
| Text (s : string)
| model_dump_json (r : CommandEndpointResponse)
| build_msg_config (cfg : gmap string json).

(** Calls of the [log] object. *)
Inductive logrec : Type :=
| debug_data (data : string)
| debug_sending (data : json) (ep : Endpoint)
| debug_got_response (resp : option string)
| error_unreachable (e : exn)
| error_not_active
| error_unhandled (e : exn)
| info_endpoint_mode.

(** Calls made on an adapter. *)
Inductive endpoint_call : Type :=
| call_send (ep : Endpoint) (data : json) (ws : handle)
| call_parse_response (ep : Endpoint) (raw : string)
| call_stop (ep : Endpoint).

(** What lies outside the two files: the JSON decoder, the behaviour of
    the adapters, which depends on the backend they talk to, and the case
    mapping of Python's [str.upper]. *)
Record Backend : Type := mkBackend {
  json_loads : string → result json;
  send : Endpoint → json → handle → option Client → result (option string);
  parse_response : Endpoint → string → result (option string);
  stop : Endpoint → result ();
  str_upper : string → string
}.

(** ** The state of the process

    [clients] and [sessions] are the object stores of [Client] and
    [WakeSession] objects, an object being known by its index.  [connmgr]
    maps a registered websocket to its [Client] object; [wake_session] is
    the module-level variable of that name; [cleanup_tasks] are the tasks
    made by [asyncio.create_task(wake_session.cleanup())] and [outbox] the
    writes scheduled by [asyncio.ensure_future(websocket.send_text(..))].
    [config_db] is what [get_config_db()] gives. *)
Record Server : Type := mkServer {
  clients : list Client;
  connmgr : gmap handle nat;
  command_endpoint : option Endpoint;
  config_db : result (gmap string json);
  notify_done_calls : list (handle * json);
  endpoint_calls : list endpoint_call;
  sessions : list WakeSession;
  wake_session : option nat;
  cleanup_tasks : list nat;
  outbox : list (handle * outmsg);
  log : list logrec
}.

Definition set_clients (f : list Client → list Client) (s : Server) : Server :=
  mkServer (f (clients s)) (connmgr s) (command_endpoint s) (config_db s)
    (notify_done_calls s) (endpoint_calls s) (sessions s) (wake_session s)
    (cleanup_tasks s) (outbox s) (log s).

Definition set_connmgr (f : gmap handle nat → gmap handle nat) (s : Server) : Server :=
  mkServer (clients s) (f (connmgr s)) (command_endpoint s) (config_db s)
    (notify_done_calls s) (endpoint_calls s) (sessions s) (wake_session s)
    (cleanup_tasks s) (outbox s) (log s).

Definition set_command_endpoint (ep : option Endpoint) (s : Server) : Server :=
  mkServer (clients s) (connmgr s) ep (config_db s)
    (notify_done_calls s) (endpoint_calls s) (sessions s) (wake_session s)
    (cleanup_tasks s) (outbox s) (log s).

Definition add_notify_done_call (c : handle * json) (s : Server) : Server :=
  mkServer (clients s) (connmgr s) (command_endpoint s) (config_db s)
    (notify_done_calls s ++ [c]) (endpoint_calls s) (sessions s) (wake_session s)
    (cleanup_tasks s) (outbox s) (log s).

Definition add_endpoint_call (c : endpoint_call) (s : Server) : Server :=
  mkServer (clients s) (connmgr s) (command_endpoint s) (config_db s)
    (notify_done_calls s) (endpoint_calls s ++ [c]) (sessions s) (wake_session s)
    (cleanup_tasks s) (outbox s) (log s).

Definition set_sessions (f : list WakeSession → list WakeSession) (s : Server) : Server :=
  mkServer (clients s) (connmgr s) (command_endpoint s) (config_db s)
    (notify_done_calls s) (endpoint_calls s) (f (sessions s)) (wake_session s)
    (cleanup_tasks s) (outbox s) (log s).

Definition set_wake_session (p : option nat) (s : Server) : Server :=
  mkServer (clients s) (connmgr s) (command_endpoint s) (config_db s)
    (notify_done_calls s) (endpoint_calls s) (sessions s) p
    (cleanup_tasks s) (outbox s) (log s).

Definition add_cleanup_task (i : nat) (s : Server) : Server :=
  mkServer (clients s) (connmgr s) (command_endpoint s) (config_db s)
    (notify_done_calls s) (endpoint_calls s) (sessions s) (wake_session s)
    (cleanup_tasks s ++ [i]) (outbox s) (log s).

Definition add_outbox (m : handle * outmsg) (s : Server) : Server :=
  mkServer (clients s) (connmgr s) (command_endpoint s) (config_db s)
    (notify_done_calls s) (endpoint_calls s) (sessions s) (wake_session s)
    (cleanup_tasks s) (outbox s ++ [m]) (log s).

Definition add_log (r : logrec) (s : Server) : Server :=
  mkServer (clients s) (connmgr s) (command_endpoint s) (config_db s)
    (notify_done_calls s) (endpoint_calls s) (sessions s) (wake_session s)
    (cleanup_tasks s) (outbox s) (log s ++ [r]).

(** ** Statements: state passing with exceptions

    A statement runs from a state to a state and returns or raises; what it
    changed before raising stays changed. *)
Definition M (A : Type) : Type := Server → Server * result A.

#[global] Instance M_bind : MBind M :=
  λ A B f m s, match m s with
               | (s', inr a) => f a s'
               | (s', inl e) => (s', inl e)
               end.
#[global] Instance M_ret : MRet M := λ A a s, (s, inr a).
#[global] Instance M_fmap : FMap M :=
  λ A B f m s, match m s with
               | (s', inr a) => (s', inr (f a))
               | (s', inl e) => (s', inl e)
               end.

Definition lift {A} (r : result A) : M A := λ s, (s, r).
Definition raise {A} (e : exn) : M A := λ s, (s, inl e).
Definition gets {A} (f : Server → A) : M A := λ s, (s, inr (f s)).
Definition modify (f : Server → Server) : M () := λ s, (f s, inr ()).
Definition pass : M () := mret ().

(** [get_config_db()] *)
Definition get_config_db : M (gmap string json) := λ s, (s, config_db s).

(** [try: body / except <those e with handler e = Some h>: h] *)
Definition try_except {A} (body : M A) (handler : exn → option (M A)) : M A :=
  λ s, match body s with
       | (s', inr a) => (s', inr a)
       | (s', inl e) => match handler e with
                        | Some h => h s'
                        | None => (s', inl e)
                        end
       end.

(** ** ConnMgr

    The [ConnMgr] class of [app/internal/connmgr.py] is missing.  The
    notifications pending for a connection live in the [NotifyQueue], which
    is missing too; of that queue only the calls the route makes on it are
    kept, in [notify_done_calls]. *)

(** Modelled from the spec: the field update of the missing
    [ConnMgr.update_client], on one of hostname, platform and mac_addr. *)
Definition set_field (key : string) (value : json) (c : Client) : Client :=
  if String.eqb key "hostname" then mkClient (ua c) (Some value) (platform c) (mac_addr c)
  else if String.eqb key "platform" then mkClient (ua c) (hostname c) (Some value) (mac_addr c)
  else if String.eqb key "mac_addr" then mkClient (ua c) (hostname c) (platform c) (Some value)
  else c.

(** Modelled from the spec: the missing [ConnMgr.accept] registers and
    never fails. *)
Definition connmgr_accept (ws : handle) (client : nat) : M () :=
  modify (set_connmgr (insert ws client)).

(** Modelled from the spec: the missing [ConnMgr.disconnect] removes the
    connection; on one already removed it does nothing.  The design also
    has it purge the notifications pending for the connection: these are
    entries of the notification queue, which this state does not hold, so
    that the purge has nothing to act on here. *)
Definition connmgr_disconnect (ws : handle) : M () :=
  modify (set_connmgr (delete ws)).

(** Modelled from the spec: the missing [ConnMgr.update_client] does
    nothing when the websocket is unknown. *)
Definition connmgr_update_client (ws : handle) (key : string) (value : json) : M () :=
  modify (λ s, match connmgr s !! ws with
               | Some r => set_clients (alter (set_field key value) r) s
               | None => s
               end).

(** The registry's view of a connection. *)
Definition registered (s : Server) (ws : handle) : option Client :=
  r ← connmgr s !! ws; clients s !! r.

(** ** The [/ws] route *)

Definition log_ (r : logrec) : M () := modify (add_log r).

(** [asyncio.ensure_future(websocket.send_text(m))] *)
Definition send_text (ws : handle) (m : outmsg) : M () :=
  modify (add_outbox (ws, m)).

(** [wake_session = WakeSession()] followed by
    [asyncio.create_task(wake_session.cleanup())]: a new object, to which
    the variable now refers, and its cleanup task. *)
Definition start_wake_session : M () :=
  modify (λ s, let i := length (sessions s) in
               add_cleanup_task i
                 (set_wake_session (Some i)
                    (set_sessions (λ l, l ++ [new_wake_session]) s))).

(** An attribute of the object a reference points to.  The route never
    holds a reference to an object that is not stored (see [wake_inv]). *)
Definition deref {A B} (store : Server → list A) (r : nat) (f : A → B) : M B :=
  λ s, match store s !! r with
       | Some x => (s, inr (f x))
       | None => (s, inl (OtherException "dangling reference"))
       end.

Section Route.
Variable B : Backend.

(** Lines 200-207: the session the wake signal joins. *)
Definition select_wake_session : M () :=
  cur ← gets wake_session;
  match cur with
  | Some i =>
      d ← deref sessions i done;
      if d : bool then start_wake_session else pass
  | None => start_wake_session
  end.

(** Lines 209-211. *)
Definition record_wake_event (ws : handle) (msg : json) : M () :=
  body ← lift (py_getitem msg "wake_start");
  has_volume ← lift (py_in "wake_volume" body);
  if has_volume : bool then
    body ← lift (py_getitem msg "wake_start");
    volume ← lift (py_getitem body "wake_volume");
    cur ← gets wake_session;
    match cur with
    | Some i => modify (set_sessions (alter (add_event (mkWakeEvent ws volume)) i))
    | None => raise AttributeError
    end
  else pass.

(** Lines 198-211. *)
Definition on_wake_start (ws : handle) (msg : json) : M () :=
  select_wake_session;; record_wake_event ws msg.

(** Lines 220-241. *)
Definition on_cmd_endpoint (ws : handle) (client : nat) (msg : json) : M () :=
  ep ← gets command_endpoint;
  match ep with
  | Some ep =>
      data ← lift (py_getitem msg "data");
      log_ (debug_sending data ep);;
      try_except
        (data ← lift (py_getitem msg "data");
         c ← gets (λ s, clients s !! client);
         modify (add_endpoint_call (call_send ep data ws));;
         resp ← lift (send B ep data ws c);
         match resp with
         | Some raw =>
             modify (add_endpoint_call (call_parse_response ep raw));;
             resp ← lift (parse_response B ep raw);
             log_ (debug_got_response resp);;
             match resp with
             | Some text => send_text ws (Text text)
             | None => pass
             end
         | None => pass
         end)
        (λ e, match e with
              | CommandEndpointRuntimeException _ =>
                  Some (send_text ws (model_dump_json
                          (mkResponse (mkResult "WAS Command Endpoint unreachable")));;
                        log_ (error_unreachable e))
              | _ => None
              end)
  | None =>
      send_text ws (model_dump_json
        (mkResponse (mkResult "WAS Command Endpoint not active")));;
      log_ error_not_active
  end.

(** Lines 250-251. *)
Definition hello_hostname (ws : handle) (msg : json) : M () :=
  hello ← lift (py_getitem msg "hello");
  b ← lift (py_in "hostname" hello);
  if b : bool then
    hello ← lift (py_getitem msg "hello");
    v ← lift (py_getitem hello "hostname");
    connmgr_update_client ws "hostname" v
  else pass.

(** Lines 252-254. *)
Definition hello_hw_type (ws : handle) (msg : json) : M () :=
  hello ← lift (py_getitem msg "hello");
  b ← lift (py_in "hw_type" hello);
  if b : bool then
    hello ← lift (py_getitem msg "hello");
    v ← lift (py_getitem hello "hw_type");
    platform ← lift (py_upper (str_upper B) v);
    connmgr_update_client ws "platform" platform
  else pass.

(** Lines 255-257. *)
Definition hello_mac_addr (ws : handle) (msg : json) : M () :=
  hello ← lift (py_getitem msg "hello");
  b ← lift (py_in "mac_addr" hello);
  if b : bool then
    hello ← lift (py_getitem msg "hello");
    v ← lift (py_getitem hello "mac_addr");
    mac_addr ← lift (hex_mac v);
    connmgr_update_client ws "mac_addr" mac_addr
  else pass.

(** Lines 249-257. *)
Definition on_hello (ws : handle) (msg : json) : M () :=
  hello_hostname ws msg;; hello_hw_type ws msg;; hello_mac_addr ws msg.

(** The body of the [while True] loop after [receive_text], lines
    194-257. *)
Definition on_message (ws : handle) (client : nat) (data : string) : M () :=
  log_ (debug_data data);;
  msg ← lift (json_loads B data);
  b ← lift (py_in "wake_start" msg);
  if b : bool then on_wake_start ws msg else
  b ← lift (py_in "wake_end" msg);
  if b : bool then pass else
  b ← lift (py_in "notify_done" msg);
  if b : bool then
    id ← lift (py_getitem msg "notify_done");
    modify (add_notify_done_call (ws, id))
  else
  b ← lift (py_in "cmd" msg);
  if b : bool then
    cmd ← lift (py_getitem msg "cmd");
    if py_eq_str cmd "endpoint" then on_cmd_endpoint ws client msg
    else
      cmd ← lift (py_getitem msg "cmd");
      if py_eq_str cmd "get_config" then
        cfg ← get_config_db;
        send_text ws (build_msg_config cfg)
      else pass
  else
  b ← lift (py_in "goodbye" msg);
  if b : bool then connmgr_disconnect ws else
  b ← lift (py_in "hello" msg);
  if b : bool then on_hello ws msg else pass.

(** What the route is doing when the messages received so far are used
    up: it has returned, or it awaits the next message. *)
Inductive session_end : Type := Returned | Awaiting.

(** The [while True] loop; [inbox] holds what the successive
    [await websocket.receive_text()] give, a text or an exception. *)
Fixpoint read_loop (ws : handle) (client : nat) (inbox : list (result string))
  : M session_end :=
  match inbox with
  | [] => mret Awaiting
  | r :: inbox' =>
      data ← lift r;
      on_message ws client data;;
      read_loop ws client inbox'
  end.

(** Lines 188-264: the route makes its [Client] object, registers it and
    reads until an exception ends the loop.  The last clause,
    [except Exception], catches every value of [exn], which holds
    [Exception]s only. *)
Definition websocket_endpoint (ws : handle) (user_agent : option string)
    (inbox : list (result string)) : M session_end :=
  client ← (λ s, (set_clients (λ l, l ++ [new_client user_agent]) s,
                   inr (length (clients s))));
  connmgr_accept ws client;;
  try_except (read_loop ws client inbox)
    (λ e, match e with
          | WebSocketDisconnect => Some (connmgr_disconnect ws;; mret Returned)
          | ConnectionClosed => Some (connmgr_disconnect ws;; mret Returned)
          | _ => Some (log_ (error_unhandled e);; mret Returned)
          end).

(** *** [init_command_endpoint] *)

Definition user_config_get (user_config : gmap string json) (key : string)
  : M json :=
  lift (py_getitem (JObj user_config) key).

Definition user_config_has (user_config : gmap string json) (key : string)
  : M bool :=
  lift (py_in key (JObj user_config)).

(** [app.command_endpoint.config.set_...(v)] on the installed REST
    adapter. *)
Definition rest_config_set (f : RestConfig → RestConfig) : M () :=
  ep ← gets command_endpoint;
  match ep with
  | Some (RestEndpoint url config) =>
      modify (set_command_endpoint (Some (RestEndpoint url (f config))))
  | _ => raise AttributeError
  end.

Definition set_auth_type (v : json) (c : RestConfig) : RestConfig :=
  mkRestConfig (Some v) (rest_auth_header c) (rest_auth_pass c) (rest_auth_user c).
Definition set_auth_header (v : json) (c : RestConfig) : RestConfig :=
  mkRestConfig (rest_auth_type c) (Some v) (rest_auth_pass c) (rest_auth_user c).
Definition set_auth_pass (v : json) (c : RestConfig) : RestConfig :=
  mkRestConfig (rest_auth_type c) (rest_auth_header c) (Some v) (rest_auth_user c).
Definition set_auth_user (v : json) (c : RestConfig) : RestConfig :=
  mkRestConfig (rest_auth_type c) (rest_auth_header c) (rest_auth_pass c) (Some v).

(** Lines 16-20 of [command_endpoints/main.py]: with no adapter
    installed, [None.stop()] raises [AttributeError]. *)
Definition stop_previous : M () :=
  try_except
    (ep ← gets command_endpoint;
     match ep with
     | Some ep => modify (add_endpoint_call (call_stop ep));; lift (stop B ep)
     | None => raise AttributeError
     end)
    (λ _, Some pass).

(** Lines 22-68. *)
Definition install_from_config : M () :=
  user_config ← get_config_db;
  has_mode ← user_config_has user_config "was_mode";
  enabled ← (if has_mode : bool
             then py_truthy <$> user_config_get user_config "was_mode"
             else mret false);
  if enabled : bool then
    log_ info_endpoint_mode;;
    kind ← user_config_get user_config "command_endpoint";
    if py_eq_str kind "Home Assistant" then
      host ← user_config_get user_config "hass_host";
      port ← user_config_get user_config "hass_port";
      tls ← user_config_get user_config "hass_tls";
      token ← user_config_get user_config "hass_token";
      modify (set_command_endpoint
                (Some (HomeAssistantWebSocketEndpoint host port tls token)))
    else
    kind ← user_config_get user_config "command_endpoint";
    if py_eq_str kind "MQTT" then
      auth_type ← user_config_get user_config "mqtt_auth_type";
      host ← user_config_get user_config "mqtt_host";
      port ← user_config_get user_config "mqtt_port";
      tls ← user_config_get user_config "mqtt_tls";
      topic ← user_config_get user_config "mqtt_topic";
      has_password ← user_config_has user_config "mqtt_password";
      password ← (if has_password : bool
                  then Some <$> user_config_get user_config "mqtt_password"
                  else mret None);
      has_username ← user_config_has user_config "mqtt_username";
      username ← (if has_username : bool
                  then Some <$> user_config_get user_config "mqtt_username"
                  else mret None);
      modify (set_command_endpoint
                (Some (MqttEndpoint
                         (mkMqttConfig (Some auth_type) (Some host) (Some port)
                            (Some tls) (Some topic) password username))))
    else
    kind ← user_config_get user_config "command_endpoint";
    if py_eq_str kind "openHAB" then
      url ← user_config_get user_config "openhab_url";
      token ← user_config_get user_config "openhab_token";
      modify (set_command_endpoint (Some (OpenhabEndpoint url token)))
    else
    kind ← user_config_get user_config "command_endpoint";
    if py_eq_str kind "REST" then
      url ← user_config_get user_config "rest_url";
      modify (set_command_endpoint
                (Some (RestEndpoint url (mkRestConfig None None None None))));;
      (if py_hasattr_dict user_config "rest_auth_type" then
         v ← user_config_get user_config "rest_auth_type";
         rest_config_set (set_auth_type v)
       else pass);;
      has ← user_config_has user_config "rest_auth_header";
      (if has : bool then
         v ← user_config_get user_config "rest_auth_header";
         rest_config_set (set_auth_header v)
       else pass);;
      has ← user_config_has user_config "rest_auth_pass";
      (if has : bool then
         v ← user_config_get user_config "rest_auth_pass";
         rest_config_set (set_auth_pass v)
       else pass);;
      has ← user_config_has user_config "rest_auth_user";
      (if has : bool then
         v ← user_config_get user_config "rest_auth_user";
         rest_config_set (set_auth_user v)
       else pass)
    else pass
  else pass.

(** Lines 15-68. *)
Definition init_command_endpoint : M () :=
  stop_previous;; install_from_config.

End Route.

(** ** The process as a transition system

    Between two suspension points the event loop runs one of: a route
    accepting its connection, the loop body on one received message, an
    exception handler of a route, the cleanup of a wake session, a
    (re)initialisation of the command endpoint, a change of the stored
    configuration. *)

Definition set_config_db (cfg : result (gmap string json)) (s : Server) : Server :=
  mkServer (clients s) (connmgr s) (command_endpoint s) cfg
    (notify_done_calls s) (endpoint_calls s) (sessions s) (wake_session s)
    (cleanup_tasks s) (outbox s) (log s).

(** [lifespan]: an empty registry, no adapter, and [wake_session = None]. *)
Definition initial_server (cfg : result (gmap string json)) : Server :=
  mkServer [] ∅ None cfg [] [] [] None [] [] [].

Inductive step (B : Backend) (s : Server) : Server → Prop :=
| step_accept ws user_agent :
    step B s (websocket_endpoint B ws user_agent [] s).1
| step_message ws client data :
    step B s (on_message B ws client data s).1
| step_disconnect ws :
    step B s (connmgr_disconnect ws s).1
| step_unhandled e :
    step B s (add_log (error_unhandled e) s)
| step_cleanup i :
    i ∈ cleanup_tasks s →
    step B s (set_sessions (alter cleanup i) s)
| step_init :
    step B s (init_command_endpoint B s).1
| step_config cfg :
    step B s (set_config_db cfg s).

Definition reachable (B : Backend) (s : Server) : Prop :=
  ∃ cfg, rtc (step B) (initial_server cfg) s.

(** The session the variable [wake_session] refers to. *)
Definition current (s : Server) : option WakeSession :=
  i ← wake_session s; sessions s !! i.

(** Session [i] exists and is Open. *)
Definition is_open (s : Server) (i : nat) : Prop :=
  ∃ w, sessions s !! i = Some w ∧ done w = false.

(** ** A backend and frames for the examples

    The decoder knows the frames of the examples, written with ['] for the
    double quote; anything else does not decode.  The adapter built for
    openHAB is unreachable, and stopping it fails. *)

Definition demo_frames : gmap string json :=
  list_to_map
    [ ("{'hello': {'hostname': 'kitchen'}}",
        JObj {[ "hello" := JObj {[ "hostname" := JStr "kitchen" ]} ]});
      ("{'hello': {'hw_type': 'esp32-s3-box', 'mac_addr': [170,187,204,221,238,255]}}",
        JObj {[ "hello" := JObj (<[ "hw_type" := JStr "esp32-s3-box" ]>
                                  {[ "mac_addr" := JList (JInt <$> [170; 187; 204; 221; 238; 255]) ]}) ]});
      ("{'wake_start': {'wake_volume': 3}}",
        JObj {[ "wake_start" := JObj {[ "wake_volume" := JInt 3 ]} ]});
      ("{'wake_start': {}}", JObj {[ "wake_start" := JObj ∅ ]});
      ("{'wake_end': {}}", JObj {[ "wake_end" := JObj ∅ ]});
      ("{'cmd': 'endpoint', 'data': 'lights on'}",
        JObj (<[ "cmd" := JStr "endpoint" ]> {[ "data" := JStr "lights on" ]})) ].

Definition demo_loads (data : string) : result json :=
  match demo_frames !! data with
  | Some v => Ok v
  | None => Raise JSONDecodeError
  end.

Definition demo_send (ep : Endpoint) (data : json) (ws : handle)
    (c : option Client) : result (option string) :=
  match ep with
  | OpenhabEndpoint _ _ => Raise (CommandEndpointRuntimeException "timed out")
  | _ => Ok None
  end.

Definition demo_stop (ep : Endpoint) : result () :=
  match ep with
  | OpenhabEndpoint _ _ => Raise (OtherException "task already cancelled")
  | _ => Ok ()
  end.

Definition demo_backend : Backend :=
  mkBackend demo_loads demo_send (λ _ raw, Ok (Some raw)) demo_stop upper.

Definition demo_openhab_config : gmap string json :=
  <[ "was_mode" := JBool true ]>
  (<[ "command_endpoint" := JStr "openHAB" ]>
  (<[ "openhab_url" := JStr "http://openhab:8080" ]>
  {[ "openhab_token" := JStr "secret" ]})).

Definition demo_rest_config : gmap string json :=
  <[ "was_mode" := JBool true ]>
  (<[ "command_endpoint" := JStr "REST" ]>
  (<[ "rest_url" := JStr "http://rest/api" ]>
  (<[ "rest_auth_type" := JStr "Basic" ]>
  (<[ "rest_auth_user" := JStr "willow" ]>
  {[ "rest_auth_pass" := JStr "hunter2" ]})))).

(** ** The properties, in the words of the design document *)

(** The colon-separated two-digit lower-case hexadecimal rendering of a
    byte sequence. *)
Definition hex_digit (d : Z) : ascii :=
  nth (Z.to_nat d) (list_ascii_of_string "0123456789abcdef") "0"%char.

Definition two_hex (b : Z) : string :=
  String (hex_digit (b / 16)) (String (hex_digit (b mod 16)) "").

Definition colon_hex (bs : list Z) : string :=
  String.concat ":" (two_hex <$> bs).

(** The state in which the route starts to read. *)
Definition accepted (ws : handle) (user_agent : option string) (s : Server) : Server :=
  set_connmgr (insert ws (length (clients s)))
    (set_clients (λ l, l ++ [new_client user_agent]) s).

(** The fixed speech results. *)
Definition speech_result (text : string) : outmsg :=
  model_dump_json (mkResponse (mkResult text)).

(** A statement that leaves a part of the state as it found it, whether it
    returns or raises. *)
Definition preserves {X A} (part : Server → X) (m : M A) : Prop :=
  ∀ s, part (m s).1 = part s.

(** The wake arbiter's part of the state. *)
Definition wake_state (s : Server) : list WakeSession * option nat :=
  (sessions s, wake_session s).

(** The stored session [i] is Done or absent for every [i] but the one the
    variable refers to, and the variable refers to a stored session. *)
Definition wake_inv (s : Server) : Prop :=
  (∀ i, is_open s i → wake_session s = Some i)
  ∧ (∀ i, wake_session s = Some i → (i < length (sessions s))%nat).

Definition at_most_one_open (s : Server) : Prop :=
  ∀ i j, is_open s i → is_open s j → i = j.

(** The events of the arbitration window a wake signal joins: those of the
    Open session, none when no session is Open. *)
Definition open_events (s : Server) : list WakeEvent :=
  match current s with
  | Some w => if done w then [] else events w
  | None => []
  end.

(** What a wake signal appends: one event with the volume and the
    originating connection when the message is a dictionary whose
    [wake_start] is a dictionary with a [wake_volume], nothing otherwise. *)
Definition signal_events (ws : handle) (msg : json) : list WakeEvent :=
  match msg with
  | JObj m =>
      match m !! "wake_start" with
      | Some (JObj body) =>
          match body !! "wake_volume" with
          | Some volume => [mkWakeEvent ws volume]
          | None => []
          end
      | _ => []
      end
  | _ => []
  end.

(** A fresh Open session is stored after the existing ones, which are left
    as they were; the variable refers to it and its events are [evs]. *)
Definition starts_fresh (evs : list WakeEvent) (s s' : Server) : Prop :=
  wake_session s' = Some (length (sessions s))
  ∧ sessions s' = sessions s ++ [mkWakeSession evs false].

(** The variable still refers to the same session, which is still Open and
    to whose events [evs] are appended; the other sessions are left as they
    were. *)
Definition appends_to (evs : list WakeEvent) (s s' : Server) : Prop :=
  wake_session s' = wake_session s
  ∧ ∃ i w, wake_session s = Some i ∧ sessions s !! i = Some w
      ∧ sessions s' = <[i := mkWakeSession (events w ++ evs) false]> (sessions s).

(** The state after [wake_session = WakeSession()] and the creation of its
    cleanup task. *)
Definition with_fresh_session (s : Server) : Server :=
  add_cleanup_task (length (sessions s))
    (set_wake_session (Some (length (sessions s)))
       (set_sessions (λ l, l ++ [new_wake_session]) s)).

(** A hello message: the dispatch reaches the [hello] branch, and the body
    is a dictionary. *)
Definition hello_message (body : gmap string json) (msg : json) : Prop :=
  ∃ m : gmap string json,
    msg = JObj m
    ∧ m !! "wake_start" = None ∧ m !! "wake_end" = None
    ∧ m !! "notify_done" = None ∧ m !! "cmd" = None ∧ m !! "goodbye" = None
    ∧ m !! "hello" = Some (JObj body).

(** What a device may give as [mac_addr]: a preformatted string or a
    sequence of six bytes. *)
Definition mac_input (v : json) : Prop :=
  (∃ t, v = JStr t)
  ∨ (∃ bs, v = JList (JInt <$> bs) ∧ length bs = 6%nat
           ∧ Forall (λ b, 0 ≤ b < 256) bs).

(** The fields of a hello body as the protocol types them: [hw_type] is a
    string, [mac_addr] a MAC input, [hostname] is free. *)
Definition well_formed_hello (body : gmap string json) : Prop :=
  (∀ v, body !! "hw_type" = Some v → ∃ t, v = JStr t)
  ∧ (∀ v, body !! "mac_addr" = Some v → mac_input v).

(** The value of a field in the most recent fragment that mentions it. *)
Fixpoint last_mention (key : string) (bodies : list (gmap string json))
  : option json :=
  match bodies with
  | [] => None
  | body :: later =>
      match last_mention key later with
      | Some v => Some v
      | None => body !! key
      end
  end.

(** The upper-cased hardware tag, [str_upper] being Python's [str.upper],
    and the canonical MAC address. *)
Definition upper_tag (str_upper : string → string) (v : json) : json :=
  match v with
  | JStr t => JStr (str_upper t)
  | _ => v
  end.

Definition json_int (v : json) : option Z :=
  match v with
  | JInt z => Some z
  | _ => None
  end.

Definition canonical_mac (v : json) : json :=
  match v with
  | JList l => JStr (colon_hex (omap json_int l))
  | _ => v
  end.

(** One fragment applied to the record of a connection. *)
Definition apply_hello (str_upper : string → string)
    (body : gmap string json) (c : Client) : Client :=
  mkClient (ua c)
    (from_option Some (hostname c) (body !! "hostname"))
    (from_option Some (platform c) (upper_tag str_upper <$> body !! "hw_type"))
    (from_option Some (mac_addr c) (canonical_mac <$> body !! "mac_addr")).

(** The registry maps the websocket to the [Client] object [r], and that
    object is [c]. *)
Definition holds (ws : handle) (r : nat) (s : Server) (c : Client) : Prop :=
  connmgr s !! ws = Some r ∧ clients s !! r = Some c.

(** A received text that decodes to a hello message with the given body. *)
Definition decodes_to_hello (B : Backend) (data : string)
    (body : gmap string json) : Prop :=
  ∃ msg, json_loads B data = Ok msg ∧ hello_message body msg.

(** ** Further properties of the code *)

(** What ['%02x'] accepts: an [int], of which [bool] is a subclass. *)
Definition is_integer (v : json) : bool :=
  match v with
  | JInt _ | JBool _ => true
  | _ => false
  end.

(** More frames and adapter behaviours for the examples: the Home
    Assistant adapter answers through its own channel, the REST adapter
    returns a body, the MQTT adapter fails with an exception that is not the
    endpoint's runtime exception. *)
Definition more_frames : gmap string json :=
  list_to_map
    [ ("{'goodbye': {}}", JObj {[ "goodbye" := JObj ∅ ]});
      ("{'ping': 1}", JObj {[ "ping" := JInt 1 ]});
      ("{'cmd': 'reboot', 'hello': {'hostname': 'attic'}}",
        JObj (<[ "cmd" := JStr "reboot" ]>
                {[ "hello" := JObj {[ "hostname" := JStr "attic" ]} ]}));
      ("5", JInt 5);
      ("'wake_start'", JStr "wake_start");
      ("{'hello': {'hostname': 'attic', 'hw_type': 7, 'mac_addr': [1,2,3,4,5,6]}}",
        JObj {[ "hello" :=
                  JObj (<[ "hostname" := JStr "attic" ]>
                       (<[ "hw_type" := JInt 7 ]>
                        {[ "mac_addr" := JList (JInt <$> [1; 2; 3; 4; 5; 6]) ]})) ]});
      ("{'cmd': 'get_config'}", JObj {[ "cmd" := JStr "get_config" ]});
      ("{'cmd': 'endpoint'}", JObj {[ "cmd" := JStr "endpoint" ]});
      ("{'cmd': 'endpoint', 'data': 'lights on'}",
        JObj (<[ "cmd" := JStr "endpoint" ]> {[ "data" := JStr "lights on" ]}));
      ("{'wake_start': {'wake_volume': 3}, 'hello': {'hostname': 'attic'}}",
        JObj (<[ "wake_start" := JObj {[ "wake_volume" := JInt 3 ]} ]>
                {[ "hello" := JObj {[ "hostname" := JStr "attic" ]} ]})) ].

Definition more_loads (data : string) : result json :=
  match more_frames !! data with
  | Some v => Ok v
  | None => Raise JSONDecodeError
  end.

Definition more_send (ep : Endpoint) (data : json) (ws : handle)
    (c : option Client) : result (option string) :=
  match ep with
  | HomeAssistantWebSocketEndpoint _ _ _ _ => Ok None
  | RestEndpoint _ _ => Ok (Some "{'speech': 'done'}")
  | MqttEndpoint _ => Raise (OtherException "broker down")
  | OpenhabEndpoint _ _ => Raise (CommandEndpointRuntimeException "timed out")
  end.

Definition more_backend : Backend :=
  mkBackend more_loads more_send (λ _ raw, Ok (Some raw)) demo_stop upper.

(** A state with a given adapter installed and nothing else. *)
Definition server_with (ep : Endpoint) : Server :=
  set_command_endpoint (Some ep) (initial_server (Ok ∅)).

(** What no device message may change: the installed adapter and the
    stored configuration. *)
Definition server_setup (s : Server) : option Endpoint * result (gmap string json) :=
  (command_endpoint s, config_db s).

(** What a wake signal leaves alone: the registry, the scheduled writes,
    the calls on the adapter and on the notification queue. *)
Definition outside_wake (s : Server) :=
  (clients s, connmgr s, outbox s, endpoint_calls s, notify_done_calls s).

(** Every session stored has its cleanup task, made when it was made. *)
Definition tasks_inv (s : Server) : Prop :=
  cleanup_tasks s = seq 0 (length (sessions s)).

(** The part of the state [tasks_inv] speaks of. *)
Definition tasks_view (s : Server) : nat * list nat :=
  (length (sessions s), cleanup_tasks s).

(** At most one write was scheduled between two states, and it is
    addressed to the given connection. *)
Definition at_most_one_reply (ws : handle) (s s' : Server) : Prop :=
  outbox s' = outbox s ∨ ∃ m, outbox s' = outbox s ++ [(ws, m)].

(** A statement that schedules at most one write, to the given
    connection. *)
Definition one_reply {A} (ws : handle) (m : M A) : Prop :=
  ∀ s, at_most_one_reply ws s (m s).1.

(** A statement that keeps [tasks_inv]. *)
Definition keeps_tasks {A} (m : M A) : Prop :=
  ∀ s, tasks_inv s → tasks_inv (m s).1.

(** A key the configuration does not have. *)
Definition missing (cfg : gmap string json) (key : string) : bool :=
  negb (bool_decide (is_Some (cfg !! key))).

Definition demo_hass_config : gmap string json :=
  <[ "was_mode" := JBool true ]>
  (<[ "command_endpoint" := JStr "Home Assistant" ]>
  (<[ "hass_host" := JStr "hass.local" ]>
  {[ "hass_port" := JInt 8123 ]})).

Definition demo_mqtt_config : gmap string json :=
  <[ "was_mode" := JBool true ]>
  (<[ "command_endpoint" := JStr "MQTT" ]>
  (<[ "mqtt_auth_type" := JStr "userpw" ]>
  (<[ "mqtt_host" := JStr "broker" ]>
  (<[ "mqtt_port" := JInt 1883 ]>
  (<[ "mqtt_tls" := JBool false ]>
  (<[ "mqtt_topic" := JStr "willow" ]>
  {[ "mqtt_username" := JStr "willow" ]})))))).

(** ** [migrate_user_files]

    The file system is what [os.path.isfile] and [shutil.move] see of it:
    [isfile] tells whether a path is a regular file, and [move] leaves a
    file system behind and returns or raises. *)
Record FileSystem : Type := mkFileSystem {
  files : Type;
  isfile : files → string → bool;
  move : string → string → files → files * result ()
}.

(** The body of the [for] loop, lines 148-151. *)
Definition migrate_user_file (O : FileSystem) (user_file : string)
    (f : files O) : files O * result () :=
  if isfile O f user_file then
    let dest := ("storage/" ++ user_file)%string in
    if negb (isfile O f dest) then move O user_file dest f
    else (f, Ok ())
  else (f, Ok ()).

(** A [for] loop over a list of names: an exception ends it. *)
Fixpoint for_each (O : FileSystem)
    (body : string → files O → files O * result ())
    (names : list string) (f : files O) : files O * result () :=
  match names with
  | [] => (f, Ok ())
  | name :: names' =>
      match body name f with
      | (f', inr _) => for_each O body names' f'
      | (f', inl e) => (f', inl e)
      end
  end.

Definition user_files : list string :=
  ["user_config.json"; "user_multinet.json"; "user_nvs.json"].

(** Lines 146-151. *)
Definition migrate_user_files (O : FileSystem) (f : files O)
  : files O * result () :=
  for_each O (migrate_user_file O) user_files f.

(** Nothing is left to migrate: each user file is absent from the working
    directory or already has its file under [storage/]. *)
Definition migrated (O : FileSystem) (f : files O) : Prop :=
  ∀ name, name ∈ user_files →
    isfile O f name = false ∨ isfile O f ("storage/" ++ name)%string = true.

(** What the migration relies on when it moves a file: a move to another
    path that returns has removed the source, and a move, whether it returns
    or raises, changes the status of no path but its source and the paths
    that begin with its destination (the destination itself, or what lies
    under it when it is a directory). *)
Definition move_removes_source (O : FileSystem) : Prop :=
  ∀ src dst f f', src ≠ dst →
    move O src dst f = (f', Ok ()) → isfile O f' src = false.

Definition move_is_local (O : FileSystem) : Prop :=
  ∀ src dst f f' r p, move O src dst f = (f', r) →
    p ≠ src → is_prefix dst p = false → isfile O f' p = isfile O f p.

(** A file system for the examples: the regular files with their content;
    [move] renames, and fails when the source is not there. *)
Definition demo_move (src dst : string) (f : gmap string string)
  : gmap string string * result () :=
  match f !! src with
  | Some content => (<[dst := content]> (delete src f), Ok ())
  | None => (f, Raise (OtherException "No such file or directory"))
  end.

Definition demo_fs : FileSystem :=
  mkFileSystem (gmap string string)
    (λ f path, bool_decide (is_Some (f !! path))) demo_move.

Definition demo_files : gmap string string :=
  <[ "user_config.json" := "{}" ]>
  (<[ "user_nvs.json" := "new" ]>
  {[ "storage/user_nvs.json" := "old" ]}).

(** * Theorems *)

Example hex_mac_list :
  hex_mac (JList (JInt <$> [0xaa; 0xbb; 0xcc; 0xdd; 0xee; 0xff]))
  = Ok (JStr "aa:bb:cc:dd:ee:ff").
Proof. reflexivity. Qed.

Example hex_mac_small :
  hex_mac (JList [JInt 1; JBool true; JInt 0; JInt 256; JInt (-1); JInt 10; JNull])
  = Ok (JStr "01:01:00:100:-1:0a").
Proof. reflexivity. Qed.

Example hex_mac_short : hex_mac (JList [JInt 1; JInt 2]) = Raise IndexError.
Proof. reflexivity. Qed.


Lemma fmt_02x_byte (b : Z) : 0 ≤ b < 256 → fmt_02x b = two_hex b.
Proof.
  intros Hb.
  assert (Hall : forallb (λ n, String.eqb (fmt_02x (Z.of_nat n)) (two_hex (Z.of_nat n)))
                   (seq 0 256) = true) by (vm_compute; reflexivity).
  rewrite forallb_forall in Hall.
  specialize (Hall (Z.to_nat b)).
  rewrite Z2Nat.id in Hall by lia.
  apply String.eqb_eq, Hall, in_seq. lia.
Qed.

Lemma hex_mac_bytes (bs : list Z) :
  length bs = 6%nat →
  Forall (λ b, 0 ≤ b < 256) bs →
  hex_mac (JList (JInt <$> bs)) = Ok (JStr (colon_hex bs)).
Proof.
  intros Hlen Hbytes.
  do 7 (destruct bs as [|? bs]; try discriminate Hlen).
  repeat match goal with
         | H : Forall _ (_ :: _) |- _ => apply Forall_cons in H; destruct H
         end.
  cbn -[fmt_02x two_hex]. by rewrite !fmt_02x_byte.
Qed.

(** C6. A list of six bytes normalizes to the colon-separated two-digit
    lower-case hexadecimal rendering of its elements, and that string, given
    preformatted, normalizes to itself: both inputs give the identical
    canonical string. *)
Theorem hex_mac_canonical (bs : list Z) :
  length bs = 6%nat →
  Forall (λ b, 0 ≤ b < 256) bs →
  hex_mac (JList (JInt <$> bs)) = Ok (JStr (colon_hex bs))
  ∧ hex_mac (JStr (colon_hex bs)) = hex_mac (JList (JInt <$> bs)).
Proof.
  intros Hlen Hbytes. rewrite (hex_mac_bytes bs Hlen Hbytes). by split.
Qed.

Lemma hex_mac_canonical_witness :
  hex_mac (JList [JInt 0xaa; JInt 0xbb; JInt 0xcc; JInt 0xdd; JInt 0xee; JInt 0xff])
    = Ok (JStr "aa:bb:cc:dd:ee:ff")
  ∧ hex_mac (JStr "aa:bb:cc:dd:ee:ff")
    = hex_mac (JList [JInt 0xaa; JInt 0xbb; JInt 0xcc; JInt 0xdd; JInt 0xee; JInt 0xff]).
Proof.
  apply (hex_mac_canonical [0xaa; 0xbb; 0xcc; 0xdd; 0xee; 0xff]).
  - reflexivity.
  - repeat constructor; lia.
Defined.

(** ** Running statements *)

Lemma py_in_obj_None (m : gmap string json) key :
  m !! key = None → py_in key (JObj m) = Ok false.
Proof. intros H. cbn. by rewrite H. Qed.

Lemma py_in_obj_Some (m : gmap string json) key v :
  m !! key = Some v → py_in key (JObj m) = Ok true.
Proof. intros H. cbn. by rewrite H. Qed.

Lemma py_in_obj (m : gmap string json) key :
  py_in key (JObj m) = Ok (bool_decide (is_Some (m !! key))).
Proof. reflexivity. Qed.

Lemma py_getitem_obj (m : gmap string json) key v :
  m !! key = Some v → py_getitem (JObj m) key = Ok v.
Proof. intros H. cbn. by rewrite H. Qed.

Lemma bind_lift_Ok {A C} (a : A) (k : A → M C) s :
  (lift (Ok a) ≫= k) s = k a s.
Proof. reflexivity. Qed.

Lemma bind_modify {C} f (k : () → M C) s :
  (modify f ≫= k) s = k () (f s).
Proof. reflexivity. Qed.

Lemma bind_gets {A C} (f : Server → A) (k : A → M C) s :
  (gets f ≫= k) s = k (f s) s.
Proof. reflexivity. Qed.

Lemma bind_get_config_db {C} (k : gmap string json → M C) s :
  (get_config_db ≫= k) s
  = match config_db s with inl e => (s, inl e) | inr cfg => k cfg s end.
Proof. unfold mbind, M_bind, get_config_db. by destruct (config_db s). Qed.

Lemma bind_fmap_lift {A A' C} (f : A → A') (r : result A) (k : A' → M C) s :
  ((f <$> lift r) ≫= k) s
  = match r with inl e => (s, inl e) | inr a => k (f a) s end.
Proof. by destruct r. Qed.

(** Rewriting with the outcome of the next test of the dispatch. *)
Ltac next_test H :=
  first [ rewrite (py_in_obj_None _ _ H)
        | rewrite (py_getitem_obj _ _ _ H)
        | rewrite (py_in_obj_Some _ _ _ H)
        | rewrite H ];
  rewrite ?bind_lift_Ok; cbn beta iota.

Lemma read_loop_cons_ok B ws client data rest s s' :
  on_message B ws client data s = (s', Ok ()) →
  read_loop B ws client (Ok data :: rest) s = read_loop B ws client rest s'.
Proof.
  intros H. cbn [read_loop]. rewrite bind_lift_Ok.
  unfold mbind, M_bind. by rewrite H.
Qed.

Lemma read_loop_cons_raise B ws client data rest s s' e :
  on_message B ws client data s = (s', Raise e) →
  read_loop B ws client (Ok data :: rest) s = (s', Raise e).
Proof.
  intros H. cbn [read_loop]. rewrite bind_lift_Ok.
  unfold mbind, M_bind. by rewrite H.
Qed.

Lemma read_loop_app B ws client pre rest s s1 :
  read_loop B ws client pre s = (s1, Ok Awaiting) →
  read_loop B ws client (pre ++ rest) s = read_loop B ws client rest s1.
Proof.
  revert s. induction pre as [|r pre IH]; intros s H.
  - by inversion H.
  - destruct r as [e|data]; [discriminate H|].
    destruct (on_message B ws client data s) as [s' [e|[]]] eqn:Hm.
    + by rewrite (read_loop_cons_raise _ _ _ _ _ _ _ _ Hm) in H.
    + rewrite (read_loop_cons_ok _ _ _ _ _ _ _ Hm) in H.
      rewrite <- app_comm_cons.
      rewrite (read_loop_cons_ok _ _ _ _ _ _ _ Hm). by apply IH.
Qed.

Lemma websocket_endpoint_unfold B ws user_agent inbox s :
  websocket_endpoint B ws user_agent inbox s =
  match read_loop B ws (length (clients s)) inbox (accepted ws user_agent s) with
  | (s', inr r) => (s', inr r)
  | (s', inl e) =>
      if is_transport e then (set_connmgr (delete ws) s', Ok Returned)
      else (add_log (error_unhandled e) s', Ok Returned)
  end.
Proof.
  unfold websocket_endpoint, accepted, try_except, connmgr_accept, mbind, M_bind, modify.
  cbn beta iota.
  destruct (read_loop _ _ _ _ _) as [s' [e|r]]; [|reflexivity].
  destruct e; reflexivity.
Qed.

Lemma websocket_endpoint_awaiting B ws user_agent inbox s s1 :
  websocket_endpoint B ws user_agent inbox s = (s1, Ok Awaiting) →
  read_loop B ws (length (clients s)) inbox (accepted ws user_agent s)
  = (s1, Ok Awaiting).
Proof.
  rewrite websocket_endpoint_unfold.
  destruct (read_loop _ _ _ _ _) as [s' [e|r]]; [|done].
  destruct (is_transport e); discriminate.
Qed.

(** ** The dispatch of endpoint commands *)

(** C4. An endpoint command received while no adapter is installed is
    answered on the device's connection with the fixed speech result
    "WAS Command Endpoint not active", and the loop body returns. *)
Theorem endpoint_not_active B ws client data (m : gmap string json) s :
  json_loads B data = Ok (JObj m) →
  m !! "wake_start" = None →
  m !! "wake_end" = None →
  m !! "notify_done" = None →
  m !! "cmd" = Some (JStr "endpoint") →
  command_endpoint s = None →
  on_message B ws client data s =
    (add_log error_not_active
       (add_outbox (ws, speech_result "WAS Command Endpoint not active")
          (add_log (debug_data data) s)),
     Ok ()).
Proof.
  intros Hloads Hws Hwe Hnd Hcmd Hep.
  unfold on_message, log_. rewrite bind_modify.
  next_test Hloads. next_test Hws. next_test Hwe. next_test Hnd.
  rewrite (py_in_obj_Some _ _ _ Hcmd), bind_lift_Ok. cbn beta iota.
  next_test Hcmd. cbn [py_eq_str is_the_string String.eqb Ascii.eqb Bool.eqb].
  unfold on_cmd_endpoint. rewrite bind_gets. cbn [command_endpoint add_log].
  rewrite Hep. reflexivity.
Qed.

Lemma endpoint_not_active_witness :
  on_message demo_backend 7 0 "{'cmd': 'endpoint', 'data': 'lights on'}"
    (initial_server (Ok ∅)) =
    (add_log error_not_active
       (add_outbox (7%nat, speech_result "WAS Command Endpoint not active")
          (add_log (debug_data "{'cmd': 'endpoint', 'data': 'lights on'}")
             (initial_server (Ok ∅)))),
     Ok ()).
Proof.
  apply (endpoint_not_active demo_backend 7 0 _
           (<[ "cmd" := JStr "endpoint" ]> {[ "data" := JStr "lights on" ]}));
    vm_compute; reflexivity.
Defined.

(** C5. An endpoint command whose [send] raises the endpoint runtime
    exception is answered with the fixed speech result
    "WAS Command Endpoint unreachable"; the cause is logged, the loop body
    returns without raising, and the loop goes on with the next message. *)
Theorem endpoint_unreachable B ws client data (m : gmap string json) d ep cause rest s :
  json_loads B data = Ok (JObj m) →
  m !! "wake_start" = None →
  m !! "wake_end" = None →
  m !! "notify_done" = None →
  m !! "cmd" = Some (JStr "endpoint") →
  m !! "data" = Some d →
  command_endpoint s = Some ep →
  send B ep d ws (clients s !! client) = Raise (CommandEndpointRuntimeException cause) →
  let s' :=
    add_log (error_unreachable (CommandEndpointRuntimeException cause))
      (add_outbox (ws, speech_result "WAS Command Endpoint unreachable")
         (add_endpoint_call (call_send ep d ws)
            (add_log (debug_sending d ep) (add_log (debug_data data) s)))) in
  on_message B ws client data s = (s', Ok ())
  ∧ read_loop B ws client (Ok data :: rest) s = read_loop B ws client rest s'.
Proof.
  intros Hloads Hws Hwe Hnd Hcmd Hdata Hep Hsend s'.
  assert (Hbody : on_message B ws client data s = (s', Ok ())).
  { unfold on_message, log_. rewrite bind_modify.
    next_test Hloads. next_test Hws. next_test Hwe. next_test Hnd.
    rewrite (py_in_obj_Some _ _ _ Hcmd), bind_lift_Ok. cbn beta iota.
    next_test Hcmd. cbn [py_eq_str is_the_string String.eqb Ascii.eqb Bool.eqb].
    unfold on_cmd_endpoint. rewrite bind_gets. cbn [command_endpoint add_log].
    rewrite Hep. next_test Hdata.
    unfold log_. rewrite bind_modify.
    unfold try_except. rewrite bind_lift_Ok.
    rewrite bind_gets, bind_modify. cbn [clients add_log add_endpoint_call].
    rewrite Hsend. reflexivity. }
  split; [exact Hbody | by apply read_loop_cons_ok].
Qed.

Lemma endpoint_unreachable_witness :
  let s := (init_command_endpoint demo_backend
              (initial_server (Ok demo_openhab_config))).1 in
  let ep := OpenhabEndpoint (JStr "http://openhab:8080") (JStr "secret") in
  let data := "{'cmd': 'endpoint', 'data': 'lights on'}" in
  let s' :=
    add_log (error_unreachable (CommandEndpointRuntimeException "timed out"))
      (add_outbox (7%nat, speech_result "WAS Command Endpoint unreachable")
         (add_endpoint_call (call_send ep (JStr "lights on") 7)
            (add_log (debug_sending (JStr "lights on") ep)
               (add_log (debug_data data) s)))) in
  on_message demo_backend 7 0 data s = (s', Ok ())
  ∧ read_loop demo_backend 7 0 [Ok data; Ok "{'wake_end': {}}"] s
    = read_loop demo_backend 7 0 [Ok "{'wake_end': {}}"] s'.
Proof.
  apply (endpoint_unreachable demo_backend 7 0 _
           (<[ "cmd" := JStr "endpoint" ]> {[ "data" := JStr "lights on" ]}));
    vm_compute; reflexivity.
Defined.

(** ** Wake end *)

(** C2, as the code has it.  In every state a message that carries
    [wake_end] (and no [wake_start]) changes nothing but the debug log: the
    session the arbiter holds keeps its status and its events. *)
Theorem wake_end_changes_nothing B ws client data msg s :
  json_loads B data = Ok msg →
  py_in "wake_start" msg = Ok false →
  py_in "wake_end" msg = Ok true →
  on_message B ws client data s = (add_log (debug_data data) s, Ok ())
  ∧ current (on_message B ws client data s).1 = current s.
Proof.
  intros Hloads Hws Hwe.
  assert (H : on_message B ws client data s = (add_log (debug_data data) s, Ok ())).
  { unfold on_message, log_. rewrite bind_modify.
    next_test Hloads. next_test Hws. next_test Hwe. reflexivity. }
  by rewrite H.
Qed.

Lemma wake_end_changes_nothing_witness :
  let s := (websocket_endpoint demo_backend 7 None
              [Ok "{'wake_start': {'wake_volume': 3}}"] (initial_server (Ok ∅))).1 in
  on_message demo_backend 7 0 "{'wake_end': {}}" s
    = (add_log (debug_data "{'wake_end': {}}") s, Ok ())
  ∧ current (on_message demo_backend 7 0 "{'wake_end': {}}" s).1 = current s.
Proof.
  apply (wake_end_changes_nothing demo_backend 7 0 _
           (JObj {[ "wake_end" := JObj ∅ ]})); vm_compute; reflexivity.
Defined.

(** C2 as stated fails: a session is Open, [wake_end] is processed, and the
    session is still Open. *)
Lemma wake_end_leaves_session_open :
  let s := (websocket_endpoint demo_backend 7 None
              [Ok "{'wake_start': {'wake_volume': 3}}"] (initial_server (Ok ∅))).1 in
  let s' := (on_message demo_backend 7 0 "{'wake_end': {}}" s).1 in
  py_in "wake_end" (JObj {[ "wake_end" := JObj ∅ ]}) = Ok true
  ∧ done <$> current s = Some false
  ∧ done <$> current s' = Some false.
Proof. vm_compute. auto. Qed.

(** ** Failures inside the loop *)

(** C1, as the code has it.  The [try] encloses the whole loop: when the
    handling of a message raises an exception other than the two transport
    ones, the exception is caught and logged and the route returns; what
    was received after that message is never read. *)
Theorem unexpected_failure_ends_session B ws user_agent pre data rest s s1 s2 e :
  websocket_endpoint B ws user_agent pre s = (s1, Ok Awaiting) →
  on_message B ws (length (clients s)) data s1 = (s2, Raise e) →
  is_transport e = false →
  websocket_endpoint B ws user_agent (pre ++ Ok data :: rest) s
  = (add_log (error_unhandled e) s2, Ok Returned).
Proof.
  intros Hpre Hmsg He.
  apply websocket_endpoint_awaiting in Hpre.
  rewrite websocket_endpoint_unfold, (read_loop_app _ _ _ _ _ _ _ Hpre).
  rewrite (read_loop_cons_raise _ _ _ _ _ _ _ _ Hmsg).
  cbn beta iota. by rewrite He.
Qed.

Lemma unexpected_failure_ends_session_witness :
  let s := initial_server (Ok ∅) in
  let s1 := (websocket_endpoint demo_backend 7 None
               [Ok "{'wake_end': {}}"] s).1 in
  websocket_endpoint demo_backend 7 None
    ([Ok "{'wake_end': {}}"] ++ Ok "}{" :: [Ok "{'hello': {'hostname': 'kitchen'}}"]) s
  = (add_log (error_unhandled JSONDecodeError) (add_log (debug_data "}{") s1),
     Ok Returned).
Proof.
  intros s s1.
  apply (unexpected_failure_ends_session demo_backend 7 None
           [Ok "{'wake_end': {}}"] "}{" _ s s1); vm_compute; reflexivity.
Defined.

(** C1 as stated fails: no transport failure occurs, the first message does
    not decode, and the route has returned without processing the hello
    that follows, which alone would have set the hostname. *)
Lemma undecodable_message_ends_session :
  let s := initial_server (Ok ∅) in
  let hello := "{'hello': {'hostname': 'kitchen'}}" in
  let r := websocket_endpoint demo_backend 7 None [Ok "}{"; Ok hello] s in
  (on_message demo_backend 7 0 "}{" (accepted 7 None s)).2 = Raise JSONDecodeError
  ∧ r.2 = Ok Returned
  ∧ hostname <$> registered r.1 7 = Some None
  ∧ hostname <$> registered (websocket_endpoint demo_backend 7 None [Ok hello] s).1 7
    = Some (Some (JStr "kitchen")).
Proof. vm_compute. auto. Qed.

(** ** [init_command_endpoint] *)

Section Preserves.
Context {X : Type} (part : Server → X).

Lemma preserves_bind {A C} (m : M A) (k : A → M C) :
  preserves part m → (∀ a, preserves part (k a)) → preserves part (m ≫= k).
Proof.
  intros Hm Hk s. unfold mbind, M_bind. specialize (Hm s).
  destruct (m s) as [s' [e|a]]; cbn in *; [done|]. by rewrite Hk.
Qed.

Lemma preserves_fmap {A C} (f : A → C) (m : M A) :
  preserves part m → preserves part (f <$> m).
Proof.
  intros Hm s. unfold fmap, M_fmap. specialize (Hm s).
  by destruct (m s) as [s' [e|a]].
Qed.

Lemma preserves_lift {A} (r : result A) : preserves part (lift r).
Proof. done. Qed.

Lemma preserves_ret {A} (a : A) : preserves part (mret a).
Proof. done. Qed.

Lemma preserves_raise {A} e : preserves part (raise (A:=A) e).
Proof. done. Qed.

Lemma preserves_gets {A} (f : Server → A) : preserves part (gets f).
Proof. done. Qed.

Lemma preserves_get_config_db : preserves part get_config_db.
Proof. done. Qed.

Lemma preserves_modify f :
  (∀ s, part (f s) = part s) → preserves part (modify f).
Proof. intros Hf s. apply Hf. Qed.

Lemma preserves_if {A} (b : bool) (m1 m2 : M A) :
  preserves part m1 → preserves part m2 → preserves part (if b then m1 else m2).
Proof. by destruct b. Qed.

Lemma preserves_try_except {A} (body : M A) handler :
  preserves part body →
  (∀ e h, handler e = Some h → preserves part h) →
  preserves part (try_except body handler).
Proof.
  intros Hb Hh s. unfold try_except. specialize (Hb s).
  destruct (body s) as [s' [e|a]]; cbn in *; [|done].
  destruct (handler e) as [h|] eqn:He; [|done].
  by rewrite (Hh e h He).
Qed.
End Preserves.

Create HintDb preserves.
#[local] Hint Resolve preserves_lift preserves_ret preserves_raise preserves_gets
  preserves_get_config_db preserves_fmap preserves_if : preserves.
#[local] Hint Extern 2 (preserves _ (_ ≫= _)) =>
  apply preserves_bind; [|intros] : preserves.
#[local] Hint Extern 1 (preserves _ pass) => apply preserves_ret : preserves.
#[local] Hint Extern 1 (preserves _ (user_config_get _ _)) =>
  apply preserves_lift : preserves.
#[local] Hint Extern 1 (preserves _ (user_config_has _ _)) =>
  apply preserves_lift : preserves.
#[local] Hint Extern 1 (preserves _ (log_ _)) =>
  apply preserves_modify; reflexivity : preserves.
#[local] Hint Extern 1 (preserves _ (send_text _ _)) =>
  apply preserves_modify; reflexivity : preserves.
#[local] Hint Extern 1 (preserves _ (connmgr_disconnect _)) =>
  apply preserves_modify; reflexivity : preserves.
#[local] Hint Extern 1 (preserves _ (modify _)) =>
  apply preserves_modify; reflexivity : preserves.

Lemma preserves_rest_config_set {X} (part : Server → X) f :
  (∀ ep s, part (set_command_endpoint ep s) = part s) →
  preserves part (rest_config_set f).
Proof.
  intros Hp s. unfold rest_config_set. rewrite bind_gets.
  destruct (command_endpoint s) as [[]|]; try done. apply Hp.
Qed.

#[local] Hint Extern 1 (preserves _ (rest_config_set _)) =>
  apply preserves_rest_config_set; reflexivity : preserves.

(** The only record that reading the configuration can add to the log is
    the one that announces the endpoint mode. *)
Lemma install_from_config_log s :
  log (install_from_config s).1 = log s
  ∨ log (install_from_config s).1 = log s ++ [info_endpoint_mode].
Proof.
  unfold install_from_config, user_config_has, user_config_get.
  rewrite bind_get_config_db. destruct (config_db s) as [e|user_config]; [by left|].
  rewrite (py_in_obj user_config "was_mode"), bind_lift_Ok.
  destruct (bool_decide (is_Some (user_config !! "was_mode"))); cbn beta iota.
  - rewrite bind_fmap_lift.
    destruct (py_getitem (JObj user_config) "was_mode") as [e|v]; [by left|].
    destruct (py_truthy v); [|by left].
    right. unfold log_ at 1. rewrite bind_modify.
    change (log s ++ [info_endpoint_mode]) with (log (add_log info_endpoint_mode s)).
    generalize (add_log info_endpoint_mode s).
    apply preserves_bind; [done|].
    intros kind. auto 30 with preserves.
  - by left.
Qed.

Lemma stop_previous_installed B s old :
  command_endpoint s = Some old →
  stop_previous B s = (add_endpoint_call (call_stop old) s, Ok ()).
Proof.
  intros Hep. unfold stop_previous, try_except.
  rewrite bind_gets, Hep, bind_modify. unfold lift.
  by destruct (stop B old) as [e|[]].
Qed.

Lemma stop_previous_none B s :
  command_endpoint s = None → stop_previous B s = (s, Ok ()).
Proof.
  intros Hep. unfold stop_previous, try_except. by rewrite bind_gets, Hep.
Qed.

(** C7, as the code has it.  [stop()] is called on the installed adapter
    first; whether it returns or raises, nothing propagates and the
    configuration is then read from the state in which only that call was
    recorded.  A failure of [stop()] is not logged: the log gains at most
    the record that announces the endpoint mode. *)
Theorem stop_failure_is_swallowed B s old :
  command_endpoint s = Some old →
  stop_previous B s = (add_endpoint_call (call_stop old) s, Ok ())
  ∧ init_command_endpoint B s
    = install_from_config (add_endpoint_call (call_stop old) s)
  ∧ (log (init_command_endpoint B s).1 = log s
     ∨ log (init_command_endpoint B s).1 = log s ++ [info_endpoint_mode]).
Proof.
  intros Hep.
  pose proof (stop_previous_installed B s old Hep) as Hstop.
  assert (Hinit : init_command_endpoint B s
                  = install_from_config (add_endpoint_call (call_stop old) s)).
  { unfold init_command_endpoint, mbind, M_bind. by rewrite Hstop. }
  split; [done|]. split; [done|]. rewrite Hinit.
  apply (install_from_config_log (add_endpoint_call (call_stop old) s)).
Qed.

Lemma stop_failure_is_swallowed_witness :
  let old := OpenhabEndpoint (JStr "http://openhab:8080") (JStr "secret") in
  let s := set_config_db (Ok demo_rest_config)
             (init_command_endpoint demo_backend
                (initial_server (Ok demo_openhab_config))).1 in
  stop_previous demo_backend s = (add_endpoint_call (call_stop old) s, Ok ())
  ∧ init_command_endpoint demo_backend s
    = install_from_config (add_endpoint_call (call_stop old) s)
  ∧ (log (init_command_endpoint demo_backend s).1 = log s
     ∨ log (init_command_endpoint demo_backend s).1 = log s ++ [info_endpoint_mode]).
Proof.
  intros old s. apply (stop_failure_is_swallowed demo_backend s old).
  vm_compute; reflexivity.
Defined.

(** C7 as stated fails: [stop()] of the installed adapter raises, the new
    adapter is installed, and the log has gained nothing about the failure,
    only the record that announces the endpoint mode. *)
Lemma stop_failure_is_not_logged :
  let old := OpenhabEndpoint (JStr "http://openhab:8080") (JStr "secret") in
  let s := set_config_db (Ok demo_rest_config)
             (init_command_endpoint demo_backend
                (initial_server (Ok demo_openhab_config))).1 in
  let r := init_command_endpoint demo_backend s in
  command_endpoint s = Some old
  ∧ stop demo_backend old = Raise (OtherException "task already cancelled")
  ∧ endpoint_calls r.1 = [call_stop old]
  ∧ r.2 = Ok ()
  ∧ log r.1 = log s ++ [info_endpoint_mode].
Proof. vm_compute. auto 10. Qed.

(** C10. When the stored configuration, a dictionary, enables the endpoint
    mode and selects "REST", the adapter installed has its [auth_type] left
    as constructed whatever the dictionary holds under [rest_auth_type],
    while the header, the password and the user are set exactly when their
    keys are in the dictionary. *)
Theorem rest_auth_type_never_applied B s (cfg : gmap string json) mode url :
  config_db s = Ok cfg →
  cfg !! "was_mode" = Some mode →
  py_truthy mode = true →
  cfg !! "command_endpoint" = Some (JStr "REST") →
  cfg !! "rest_url" = Some url →
  (init_command_endpoint B s).2 = Ok ()
  ∧ command_endpoint (init_command_endpoint B s).1
    = Some (RestEndpoint url
              (mkRestConfig None (cfg !! "rest_auth_header")
                 (cfg !! "rest_auth_pass") (cfg !! "rest_auth_user"))).
Proof.
  intros Hcfg Hmode Htruthy Hkind Hurl.
  assert (Hinstall : ∀ s0, config_db s0 = Ok cfg →
    (install_from_config s0).2 = Ok ()
    ∧ command_endpoint (install_from_config s0).1
      = Some (RestEndpoint url
                (mkRestConfig None (cfg !! "rest_auth_header")
                   (cfg !! "rest_auth_pass") (cfg !! "rest_auth_user")))).
  { clear s Hcfg. intros s Hcfg.
    unfold install_from_config, user_config_has, user_config_get.
    rewrite bind_get_config_db, Hcfg. cbn beta iota.
    rewrite (py_in_obj_Some _ _ _ Hmode), bind_lift_Ok. cbn beta iota.
    rewrite bind_fmap_lift, (py_getitem_obj _ _ _ Hmode). cbn beta iota.
    rewrite Htruthy. unfold log_. rewrite bind_modify.
    rewrite !(py_getitem_obj _ _ _ Hkind), !(py_getitem_obj _ _ _ Hurl).
    rewrite !(py_in_obj cfg).
    destruct (cfg !! "rest_auth_header") as [header|] eqn:Hh;
      destruct (cfg !! "rest_auth_pass") as [pass_|] eqn:Hp;
      destruct (cfg !! "rest_auth_user") as [user|] eqn:Hu;
      rewrite ?(py_getitem_obj _ _ _ Hh), ?(py_getitem_obj _ _ _ Hp),
        ?(py_getitem_obj _ _ _ Hu);
      by vm_compute. }
  destruct (command_endpoint s) as [old|] eqn:Hep.
  - unfold init_command_endpoint, mbind, M_bind.
    rewrite (stop_previous_installed B s old Hep). by apply Hinstall.
  - unfold init_command_endpoint, mbind, M_bind.
    rewrite (stop_previous_none B s Hep). by apply Hinstall.
Qed.

Lemma rest_auth_type_never_applied_witness :
  let r := init_command_endpoint demo_backend
             (initial_server (Ok demo_rest_config)) in
  demo_rest_config !! "rest_auth_type" = Some (JStr "Basic")
  ∧ r.2 = Ok ()
  ∧ command_endpoint r.1
    = Some (RestEndpoint (JStr "http://rest/api")
              (mkRestConfig None None (Some (JStr "hunter2")) (Some (JStr "willow")))).
Proof.
  split; [vm_compute; reflexivity|].
  apply (rest_auth_type_never_applied demo_backend
           (initial_server (Ok demo_rest_config)) demo_rest_config
           (JBool true) (JStr "http://rest/api"));
    vm_compute; reflexivity.
Defined.

(** ** The wake arbiter *)

Lemma select_wake_session_run s :
  (∀ i, wake_session s = Some i → (i < length (sessions s))%nat) →
  select_wake_session s
  = (match current s with
     | Some w => if done w then with_fresh_session s else s
     | None => with_fresh_session s
     end, Ok ()).
Proof.
  intros Hvalid. unfold select_wake_session, current. rewrite bind_gets.
  destruct (wake_session s) as [i|] eqn:Hcur; cbn; [|reflexivity].
  unfold mbind at 1, M_bind at 1, deref.
  destruct (sessions s !! i) as [w|] eqn:Hi.
  - by destruct (done w).
  - apply lookup_ge_None in Hi. specialize (Hvalid i eq_refl). lia.
Qed.

Lemma record_wake_event_obj ws (m body : gmap string json) s i :
  m !! "wake_start" = Some (JObj body) →
  wake_session s = Some i →
  record_wake_event ws (JObj m) s
  = (match body !! "wake_volume" with
     | Some v => set_sessions (alter (add_event (mkWakeEvent ws v)) i) s
     | None => s
     end, Ok ()).
Proof.
  intros Hbody Hcur. unfold record_wake_event.
  rewrite !(py_getitem_obj _ _ _ Hbody), bind_lift_Ok.
  destruct (body !! "wake_volume") as [v|] eqn:Hv.
  - rewrite (py_in_obj_Some _ _ _ Hv), bind_lift_Ok. cbn beta iota.
    rewrite bind_lift_Ok, (py_getitem_obj _ _ _ Hv), bind_lift_Ok, bind_gets.
    by rewrite Hcur.
  - by rewrite (py_in_obj_None _ _ Hv), bind_lift_Ok.
Qed.

(** Whatever the message is, recording adds at most one event, to the
    session the variable refers to. *)
Lemma record_wake_event_cases ws msg s i :
  wake_session s = Some i →
  (record_wake_event ws msg s).1 = s
  ∨ ∃ v, (record_wake_event ws msg s).1
         = set_sessions (alter (add_event (mkWakeEvent ws v)) i) s.
Proof.
  intros Hcur. unfold record_wake_event.
  destruct (py_getitem msg "wake_start") as [e|body]; [by left|].
  rewrite !bind_lift_Ok.
  destruct (py_in "wake_volume" body) as [e|[]]; [by left| |by left].
  rewrite !bind_lift_Ok.
  destruct (py_getitem body "wake_volume") as [e|v]; [by left|].
  rewrite bind_lift_Ok, bind_gets, Hcur. right. by exists v.
Qed.

Lemma wake_inv_same s s' :
  wake_state s' = wake_state s → wake_inv s → wake_inv s'.
Proof.
  unfold wake_state, wake_inv, is_open. intros [= Hs Hw]. by rewrite Hs, Hw.
Qed.

Lemma wake_inv_preserves {A} (m : M A) s :
  preserves wake_state m → wake_inv s → wake_inv (m s).1.
Proof. intros Hm. apply wake_inv_same, Hm. Qed.

Lemma wake_inv_alter f i s :
  (∀ w, done (f w) = false → done w = false) →
  wake_inv s → wake_inv (set_sessions (alter f i) s).
Proof.
  intros Hf [Hopen Hvalid]. split.
  - intros j (w & Hj & Hw). cbn in *. apply Hopen.
    destruct (decide (i = j)) as [->|Hne].
    + rewrite list_lookup_alter_eq in Hj.
      destruct (sessions s !! j) as [w0|] eqn:Hw0; [|done].
      injection Hj as <-. exists w0. auto.
    + rewrite list_lookup_alter_ne in Hj by done. by exists w.
  - intros j Hj. cbn in *. rewrite length_alter. by apply Hvalid.
Qed.

Lemma wake_inv_fresh s :
  wake_inv s →
  match current s with Some w => done w = true | None => True end →
  wake_inv (with_fresh_session s).
Proof.
  intros [Hopen Hvalid] Hstale. split.
  - intros j (w & Hj & Hw). cbn in *.
    destruct (decide (j < length (sessions s))%nat) as [Hlt|Hge].
    + rewrite lookup_app_l in Hj by done.
      assert (Hcur : wake_session s = Some j) by (apply Hopen; by exists w).
      unfold current in Hstale. rewrite Hcur in Hstale. cbn in Hstale.
      rewrite Hj in Hstale. congruence.
    + apply lookup_lt_Some in Hj. rewrite length_app in Hj. cbn in Hj.
      f_equal. lia.
  - intros j [= <-]. cbn. rewrite length_app. cbn. lia.
Qed.

Lemma on_wake_start_wake_inv ws msg s :
  wake_inv s → wake_inv (on_wake_start ws msg s).1.
Proof.
  intros Hinv. unfold on_wake_start, mbind, M_bind.
  rewrite select_wake_session_run by apply Hinv.
  set (s1 := match current s with
             | Some w => if done w then with_fresh_session s else s
             | None => with_fresh_session s
             end).
  assert (Hinv1 : wake_inv s1).
  { subst s1. destruct (current s) as [w|] eqn:Hc.
    - destruct (done w) eqn:Hd; [|done]. apply wake_inv_fresh; [done|].
      by rewrite Hc.
    - apply wake_inv_fresh; [done|]. by rewrite Hc. }
  assert (Hcur1 : ∃ i, wake_session s1 = Some i).
  { subst s1. unfold current. destruct (wake_session s) as [i|] eqn:Hw; cbn.
    - destruct (sessions s !! i) as [w|]; [destruct (done w)|]; cbn; eauto.
    - eauto. }
  destruct Hcur1 as [i Hi].
  destruct (record_wake_event_cases ws msg s1 i Hi) as [Hs|[v Hs]].
  - destruct (record_wake_event ws msg s1) as [s2 [e|[]]]; cbn in *; by subst.
  - destruct (record_wake_event ws msg s1) as [s2 [e|[]]]; cbn in *; subst;
      by apply wake_inv_alter.
Qed.

Lemma preserves_update_client {X} (part : Server → X) ws key value :
  (∀ f s, part (set_clients f s) = part s) →
  preserves part (connmgr_update_client ws key value).
Proof.
  intros Hp. apply preserves_modify. intros s.
  by destruct (connmgr s !! ws).
Qed.

#[local] Hint Extern 1 (preserves _ (connmgr_update_client _ _ _)) =>
  apply preserves_update_client; reflexivity : preserves.

Lemma on_cmd_endpoint_wake_state B ws client msg :
  preserves wake_state (on_cmd_endpoint B ws client msg).
Proof.
  unfold on_cmd_endpoint. apply preserves_bind; [done|].
  intros [ep|]; [|auto with preserves].
  apply preserves_bind; [done|]. intros data.
  apply preserves_bind; [auto with preserves|]. intros _.
  apply preserves_try_except.
  - apply preserves_bind; [done|]. intros data'.
    apply preserves_bind; [done|]. intros c.
    apply preserves_bind; [auto with preserves|]. intros _.
    apply preserves_bind; [done|]. intros [raw|]; [|done].
    apply preserves_bind; [auto with preserves|]. intros _.
    apply preserves_bind; [done|]. intros resp.
    apply preserves_bind; [auto with preserves|]. intros _.
    destruct resp; auto with preserves.
  - intros e h He. destruct e; try discriminate He.
    injection He as <-. auto with preserves.
Qed.

Lemma on_hello_wake_state B ws msg : preserves wake_state (on_hello B ws msg).
Proof.
  unfold on_hello, hello_hostname, hello_hw_type, hello_mac_addr.
  auto 40 with preserves.
Qed.

Lemma on_message_wake_inv B ws client data s :
  wake_inv s → wake_inv (on_message B ws client data s).1.
Proof.
  intros Hinv. unfold on_message, log_. rewrite bind_modify.
  assert (Hinv' : wake_inv (add_log (debug_data data) s)) by done.
  revert Hinv'. generalize (add_log (debug_data data) s). clear s Hinv.
  intros s Hinv.
  destruct (json_loads B data) as [e|msg]; [done|]. rewrite bind_lift_Ok.
  destruct (py_in "wake_start" msg) as [e|[]]; [done| |]; rewrite bind_lift_Ok.
  - by apply on_wake_start_wake_inv.
  - apply wake_inv_preserves; [|done].
    pose proof (on_cmd_endpoint_wake_state B ws client msg).
    pose proof (on_hello_wake_state B ws msg).
    auto 40 with preserves.
Qed.

Lemma stop_previous_wake_state B : preserves wake_state (stop_previous B).
Proof.
  unfold stop_previous. apply preserves_try_except.
  - apply preserves_bind; [done|]. intros [ep|]; auto with preserves.
  - intros e h [= <-]. auto with preserves.
Qed.

Lemma init_command_endpoint_wake_state B :
  preserves wake_state (init_command_endpoint B).
Proof.
  unfold init_command_endpoint. apply preserves_bind.
  - apply stop_previous_wake_state.
  - intros _. unfold install_from_config. auto 40 with preserves.
Qed.

Lemma step_wake_inv B s s' : step B s s' → wake_inv s → wake_inv s'.
Proof.
  intros Hstep Hinv. destruct Hstep.
  - rewrite websocket_endpoint_unfold. by cbn.
  - by apply on_message_wake_inv.
  - done.
  - done.
  - apply wake_inv_alter; [|done]. by intros w.
  - by apply wake_inv_preserves; [apply init_command_endpoint_wake_state|].
  - done.
Qed.

Lemma reachable_wake_inv B s : reachable B s → wake_inv s.
Proof.
  intros [cfg Hrtc]. revert s Hrtc. apply rtc_ind_r.
  - split.
    + by intros i (w & Hw & _).
    + by intros i.
  - intros s s' _ Hstep Hinv. by eapply step_wake_inv.
Qed.

Lemma wake_inv_at_most_one_open s : wake_inv s → at_most_one_open s.
Proof.
  intros [Hopen _] i j Hi Hj.
  apply Hopen in Hi, Hj. congruence.
Qed.

Lemma reachable_step B s s' : reachable B s → step B s s' → reachable B s'.
Proof. intros [cfg Hrtc] Hstep. exists cfg. by eapply rtc_r. Qed.

Lemma on_message_wake_start B ws client data msg s :
  json_loads B data = Ok msg →
  py_in "wake_start" msg = Ok true →
  on_message B ws client data s
  = on_wake_start ws msg (add_log (debug_data data) s).
Proof.
  intros Hloads Hws. unfold on_message, log_. rewrite bind_modify.
  next_test Hloads. by next_test Hws.
Qed.

Lemma alter_as_insert {A} (f : A → A) i (l : list A) x :
  l !! i = Some x → alter f i l = <[i := f x]> l.
Proof.
  intros Hi. apply list_eq. intros j.
  destruct (decide (i = j)) as [<-|Hne].
  - rewrite list_lookup_alter_eq, Hi, list_lookup_insert_eq; [done|].
    by eapply lookup_lt_Some.
  - by rewrite list_lookup_alter_ne, list_lookup_insert_ne.
Qed.

Lemma alter_last {A} (f : A → A) (l : list A) x :
  alter f (length l) (l ++ [x]) = l ++ [f x].
Proof.
  replace (length l) with (length l + 0)%nat by lia.
  by rewrite alter_app_r.
Qed.

Lemma lookup_snoc_ne {A} (l : list A) x j :
  j ≠ length l → (l ++ [x]) !! j = l !! j.
Proof.
  intros Hj. destruct (decide (j < length l)%nat); [by rewrite lookup_app_l|].
  rewrite !lookup_ge_None_2; [done|lia|]. rewrite length_app. cbn. lia.
Qed.

(** What [record_wake_event] does, for any message: it appends the events
    of the signal to the session the variable refers to. *)
Lemma record_wake_event_signal ws msg s i :
  wake_session s = Some i →
  (signal_events ws msg = [] ∧ (record_wake_event ws msg s).1 = s)
  ∨ (∃ v, signal_events ws msg = [mkWakeEvent ws v]
          ∧ (record_wake_event ws msg s).1
            = set_sessions (alter (add_event (mkWakeEvent ws v)) i) s).
Proof.
  intros Hcur. unfold record_wake_event, signal_events.
  destruct msg as [| | | | | |m]; try by left.
  destruct (m !! "wake_start") as [body|] eqn:Hbody.
  - rewrite !(py_getitem_obj _ _ _ Hbody), bind_lift_Ok.
    destruct body as [| | | |t|l|body]; try by left.
    + cbn [py_in]. rewrite bind_lift_Ok.
      destruct (is_substring "wake_volume" t); by left.
    + cbn [py_in]. rewrite bind_lift_Ok.
      destruct (existsb (is_the_string "wake_volume") l); by left.
    + destruct (body !! "wake_volume") as [v|] eqn:Hv.
      * right. exists v. split; [done|].
        rewrite (py_in_obj_Some _ _ _ Hv), bind_lift_Ok. cbn beta iota.
        rewrite bind_lift_Ok, (py_getitem_obj _ _ _ Hv), bind_lift_Ok, bind_gets.
        by rewrite Hcur.
      * left. split; [done|].
        by rewrite (py_in_obj_None _ _ Hv), bind_lift_Ok.
  - left. split; [done|]. cbn [py_getitem]. by rewrite Hbody.
Qed.

(** C3. In every state the process can reach at most one WakeSession is
    Open.  A message with [wake_start] leaves this so; if the variable
    refers to no session or to a Done one, a fresh Open session is stored
    after the existing ones, which are not touched, the variable refers to
    it and it holds the events of the signal; if the variable refers to an
    Open session, it still does and the events of the signal are appended
    to that session. *)
Theorem one_open_wake_session B s :
  reachable B s →
  at_most_one_open s
  ∧ ∀ ws client data msg,
      json_loads B data = Ok msg →
      py_in "wake_start" msg = Ok true →
      let s' := (on_message B ws client data s).1 in
      at_most_one_open s'
      ∧ match current s with
        | Some w =>
            if done w then starts_fresh (signal_events ws msg) s s'
            else appends_to (signal_events ws msg) s s'
        | None => starts_fresh (signal_events ws msg) s s'
        end.
Proof.
  intros Hreach. pose proof (reachable_wake_inv B s Hreach) as Hinv.
  split; [by apply wake_inv_at_most_one_open|].
  intros ws client data msg Hloads Hws s'. split.
  { apply wake_inv_at_most_one_open, (reachable_wake_inv B).
    apply (reachable_step B s); [done|]. apply step_message. }
  subst s'. rewrite (on_message_wake_start _ _ _ _ _ _ Hloads Hws).
  set (s0 := add_log (debug_data data) s).
  unfold on_wake_start, mbind, M_bind.
  rewrite select_wake_session_run by apply Hinv.
  change (current s0) with (current s).
  assert (Hnew :
    starts_fresh (signal_events ws msg) s
      (record_wake_event ws msg (with_fresh_session s0)).1).
  { destruct (record_wake_event_signal ws msg (with_fresh_session s0)
                (length (sessions s)) eq_refl) as [[-> ->]|(v & -> & ->)];
      split; cbn; try done. by rewrite alter_last. }
  destruct (current s) as [w|] eqn:Hcur.
  - destruct (done w) eqn:Hdone; [exact Hnew|].
    unfold current in Hcur.
    destruct (wake_session s) as [i|] eqn:Hi; [|done]. cbn in Hcur.
    destruct (record_wake_event_signal ws msg s0 i Hi) as [[-> ->]|(v & -> & ->)];
      (split; [done|]); exists i, w; (split; [done|]); (split; [done|]); cbn.
    + rewrite app_nil_r, list_insert_id; [done|].
      rewrite Hcur. f_equal. destruct w; cbn in *. by subst.
    + rewrite (alter_as_insert _ _ _ _ Hcur). unfold add_event.
      by rewrite Hdone.
  - exact Hnew.
Qed.

Lemma one_open_wake_session_witness :
  let frame := "{'wake_start': {'wake_volume': 3}}" in
  let s := (on_message demo_backend 7 0 frame (initial_server (Ok ∅))).1 in
  let s' := (on_message demo_backend 8 1 frame s).1 in
  reachable demo_backend s
  ∧ at_most_one_open s
  ∧ at_most_one_open s'
  ∧ appends_to [mkWakeEvent 8 (JInt 3)] s s'.
Proof.
  intros frame s s'.
  assert (Hreach : reachable demo_backend s).
  { exists (Ok ∅). eapply rtc_l; [apply step_message | apply rtc_refl]. }
  destruct (one_open_wake_session demo_backend s Hreach) as [Hone Hstart].
  destruct (Hstart 8%nat 1%nat frame
              (JObj {[ "wake_start" := JObj {[ "wake_volume" := JInt 3 ]} ]}))
    as [Hone' Hjoin]; [vm_compute; reflexivity ..|].
  split; [exact Hreach|]. split; [exact Hone|]. split; [exact Hone'|].
  exact Hjoin.
Defined.

(** C9. A [wake_start] whose body has no [wake_volume] records no event:
    the session the variable refers to afterwards has the events of the
    window the signal joined.  With a [wake_volume], exactly one event, with
    that volume and the originating connection, is appended to them.  The
    other sessions are as they were. *)
Theorem wake_volume_decides_event B ws client data (m body : gmap string json) s :
  reachable B s →
  json_loads B data = Ok (JObj m) →
  m !! "wake_start" = Some (JObj body) →
  let s' := (on_message B ws client data s).1 in
  (on_message B ws client data s).2 = Ok ()
  ∧ events <$> current s'
    = Some (open_events s ++ match body !! "wake_volume" with
                             | Some v => [mkWakeEvent ws v]
                             | None => []
                             end)
  ∧ ∀ j, wake_session s' ≠ Some j → sessions s' !! j = sessions s !! j.
Proof.
  intros Hreach Hloads Hbody s'. subst s'.
  pose proof (reachable_wake_inv B s Hreach) as Hinv.
  rewrite (on_message_wake_start _ _ _ _ _ _ Hloads (py_in_obj_Some _ _ _ Hbody)).
  set (s0 := add_log (debug_data data) s).
  unfold on_wake_start, mbind, M_bind.
  rewrite select_wake_session_run by apply Hinv.
  change (current s0) with (current s). unfold open_events.
  assert (Hnew :
    let r := record_wake_event ws (JObj m) (with_fresh_session s0) in
    r.2 = Ok ()
    ∧ events <$> current r.1
      = Some ([] ++ match body !! "wake_volume" with
                    | Some v => [mkWakeEvent ws v]
                    | None => []
                    end)
    ∧ ∀ j, wake_session r.1 ≠ Some j → sessions r.1 !! j = sessions s !! j).
  { rewrite (record_wake_event_obj ws m body (with_fresh_session s0)
               (length (sessions s)) Hbody eq_refl).
    cbn zeta. split; [done|].
    destruct (body !! "wake_volume") as [v|]; unfold current; cbn.
    - rewrite alter_last. split.
      + by rewrite lookup_app_r, Nat.sub_diag.
      + intros j Hj. apply lookup_snoc_ne. congruence.
    - split.
      + by rewrite lookup_app_r, Nat.sub_diag.
      + intros j Hj. apply lookup_snoc_ne. congruence. }
  destruct (current s) as [w|] eqn:Hcur; [|exact Hnew].
  destruct (done w) eqn:Hdone; [exact Hnew|].
  unfold current in Hcur.
  destruct (wake_session s) as [i|] eqn:Hi; [|done]. cbn in Hcur.
  rewrite (record_wake_event_obj ws m body s0 i Hbody Hi).
  split; [done|].
  destruct (body !! "wake_volume") as [v|]; unfold current; cbn; rewrite Hi; cbn.
  - split.
    + by rewrite list_lookup_alter_eq, Hcur.
    + intros j Hj. rewrite list_lookup_alter_ne; [done|congruence].
  - split; [by rewrite Hcur, app_nil_r|done].
Qed.

Lemma wake_volume_decides_event_witness :
  let s := (on_message demo_backend 7 0 "{'wake_start': {}}"
              (initial_server (Ok ∅))).1 in
  let frame := "{'wake_start': {'wake_volume': 3}}" in
  let s' := (on_message demo_backend 8 1 frame s).1 in
  reachable demo_backend s
  ∧ (on_message demo_backend 8 1 frame s).2 = Ok ()
  ∧ events <$> current s' = Some (open_events s ++ [mkWakeEvent 8 (JInt 3)])
  ∧ ∀ j, wake_session s' ≠ Some j → sessions s' !! j = sessions s !! j.
Proof.
  intros s frame s'.
  assert (Hreach : reachable demo_backend s).
  { exists (Ok ∅). eapply rtc_l; [apply step_message | apply rtc_refl]. }
  split; [exact Hreach|].
  assert (Hvolume : ({[ "wake_volume" := JInt 3 ]} : gmap string json)
                      !! "wake_volume" = Some (JInt 3)) by reflexivity.
  pose proof (wake_volume_decides_event demo_backend 8 1 frame
                {[ "wake_start" := JObj {[ "wake_volume" := JInt 3 ]} ]}
                {[ "wake_volume" := JInt 3 ]} s Hreach) as H.
  cbv zeta in H. rewrite Hvolume in H.
  apply H; vm_compute; reflexivity.
Defined.

(** ** Hello fragments *)

Lemma update_client_run ws key value s r c :
  connmgr s !! ws = Some r →
  clients s !! r = Some c →
  connmgr_update_client ws key value s
  = (set_clients (λ l, <[r := set_field key value c]> l) s, Ok ()).
Proof.
  intros Hws Hr. unfold connmgr_update_client, modify. rewrite Hws.
  unfold set_clients. by rewrite (alter_as_insert _ _ _ _ Hr).
Qed.

Lemma mac_input_normalized v :
  mac_input v → hex_mac v = Ok (canonical_mac v).
Proof.
  intros [[t ->]|(bs & -> & Hlen & Hbytes)]; [done|].
  rewrite (hex_mac_bytes bs Hlen Hbytes). cbn. do 3 f_equal.
  clear. induction bs as [|b bs IH]; [done|]. cbn. by rewrite <- IH.
Qed.

Section Hello.
Context (B : Backend) (ws : handle) (m body : gmap string json) (r : nat).
Hypothesis Hhello : m !! "hello" = Some (JObj body).

Lemma holds_update s c key value :
  holds ws r s c →
  ∃ s', connmgr_update_client ws key value s = (s', Ok ())
        ∧ holds ws r s' (set_field key value c).
Proof.
  intros [Hws Hr]. eexists. split; [by apply update_client_run|].
  split; [done|]. cbn. apply list_lookup_insert_eq. by eapply lookup_lt_Some.
Qed.

Lemma hello_hostname_run s c :
  holds ws r s c →
  ∃ s', hello_hostname ws (JObj m) s = (s', Ok ())
        ∧ holds ws r s' (mkClient (ua c)
                      (from_option Some (hostname c) (body !! "hostname"))
                      (platform c) (mac_addr c)).
Proof.
  intros Hc. unfold hello_hostname.
  rewrite !(py_getitem_obj _ _ _ Hhello), !bind_lift_Ok.
  destruct (body !! "hostname") as [v|] eqn:Hv.
  - rewrite (py_in_obj_Some _ _ _ Hv), !bind_lift_Ok. cbn beta iota.
    rewrite ?bind_lift_Ok, (py_getitem_obj _ _ _ Hv), bind_lift_Ok.
    apply (holds_update s c "hostname" v Hc).
  - rewrite (py_in_obj_None _ _ Hv), bind_lift_Ok. exists s. destruct c. by split.
Qed.

Lemma hello_hw_type_run s c :
  (∀ v, body !! "hw_type" = Some v → ∃ t, v = JStr t) →
  holds ws r s c →
  ∃ s', hello_hw_type B ws (JObj m) s = (s', Ok ())
        ∧ holds ws r s' (mkClient (ua c) (hostname c)
                      (from_option Some (platform c) (upper_tag (str_upper B) <$> body !! "hw_type"))
                      (mac_addr c)).
Proof.
  intros Htype Hc. unfold hello_hw_type.
  rewrite !(py_getitem_obj _ _ _ Hhello), !bind_lift_Ok.
  destruct (body !! "hw_type") as [v|] eqn:Hv.
  - destruct (Htype v eq_refl) as [t ->].
    rewrite (py_in_obj_Some _ _ _ Hv), !bind_lift_Ok. cbn beta iota.
    rewrite ?bind_lift_Ok, (py_getitem_obj _ _ _ Hv), bind_lift_Ok.
    cbn [py_upper]. rewrite bind_lift_Ok.
    apply (holds_update s c "platform" (JStr (str_upper B t)) Hc).
  - rewrite (py_in_obj_None _ _ Hv), bind_lift_Ok. exists s. destruct c. by split.
Qed.

Lemma hello_mac_addr_run s c :
  (∀ v, body !! "mac_addr" = Some v → mac_input v) →
  holds ws r s c →
  ∃ s', hello_mac_addr ws (JObj m) s = (s', Ok ())
        ∧ holds ws r s' (mkClient (ua c) (hostname c) (platform c)
                      (from_option Some (mac_addr c)
                         (canonical_mac <$> body !! "mac_addr"))).
Proof.
  intros Hmac Hc. unfold hello_mac_addr.
  rewrite !(py_getitem_obj _ _ _ Hhello), !bind_lift_Ok.
  destruct (body !! "mac_addr") as [v|] eqn:Hv.
  - rewrite (py_in_obj_Some _ _ _ Hv), !bind_lift_Ok. cbn beta iota.
    rewrite ?bind_lift_Ok, (py_getitem_obj _ _ _ Hv), bind_lift_Ok.
    rewrite (mac_input_normalized v (Hmac v eq_refl)), bind_lift_Ok.
    apply (holds_update s c "mac_addr" (canonical_mac v) Hc).
  - rewrite (py_in_obj_None _ _ Hv), bind_lift_Ok. exists s. destruct c. by split.
Qed.

(** The record of the connection after the [hello] branch. *)
Lemma on_hello_run s c :
  well_formed_hello body →
  holds ws r s c →
  ∃ s', on_hello B ws (JObj m) s = (s', Ok ())
      ∧ holds ws r s' (apply_hello (str_upper B) body c).
Proof.
  intros [Htype Hmac] Hc. unfold on_hello.
  destruct (hello_hostname_run s c Hc) as (s1 & Hrun1 & Hc1).
  destruct (hello_hw_type_run s1 _ Htype Hc1) as (s2 & Hrun2 & Hc2).
  destruct (hello_mac_addr_run s2 _ Hmac Hc2) as (s3 & Hrun3 & Hc3).
  exists s3. split; [|exact Hc3].
  unfold mbind, M_bind. by rewrite Hrun1, Hrun2, Hrun3.
Qed.
End Hello.

Lemma on_message_hello B ws client data body s r c :
  decodes_to_hello B data body →
  well_formed_hello body →
  holds ws r s c →
  ∃ s', on_message B ws client data s = (s', Ok ())
        ∧ holds ws r s' (apply_hello (str_upper B) body c).
Proof.
  intros (msg & Hloads & m & -> & Hws & Hwe & Hnd & Hcmd & Hbye & Hhello) Hwf Hc.
  unfold on_message, log_. rewrite bind_modify.
  next_test Hloads. next_test Hws. next_test Hwe. next_test Hnd.
  next_test Hcmd. next_test Hbye.
  rewrite (py_in_obj_Some _ _ _ Hhello), bind_lift_Ok. cbn beta iota.
  by apply (on_hello_run B ws m body r Hhello).
Qed.

Lemma read_loop_hellos B ws client r datas bodies :
  Forall2 (decodes_to_hello B) datas bodies →
  Forall well_formed_hello bodies →
  ∀ s c, holds ws r s c →
  ∃ s', read_loop B ws client (Ok <$> datas) s = (s', Ok Awaiting)
        ∧ holds ws r s'
            (foldl (λ c body, apply_hello (str_upper B) body c) c bodies).
Proof.
  induction 1 as [|data body datas bodies Hdec _ IH]; intros Hwf s c Hc.
  - by exists s.
  - apply Forall_cons in Hwf as [Hwf Hwfs].
    destruct (on_message_hello B ws client data body s r c Hdec Hwf Hc)
      as (s1 & Hrun & Hc1).
    destruct (IH Hwfs s1 _ Hc1) as (s' & Hloop & Hc').
    exists s'. split; [|exact Hc'].
    rewrite fmap_cons. by rewrite (read_loop_cons_ok _ _ _ _ _ _ _ Hrun).
Qed.

Lemma foldl_apply_hello str_upper bodies c :
  foldl (λ c body, apply_hello str_upper body c) c bodies
  = mkClient (ua c)
      (from_option Some (hostname c) (last_mention "hostname" bodies))
      (from_option Some (platform c)
         (upper_tag str_upper <$> last_mention "hw_type" bodies))
      (from_option Some (mac_addr c) (canonical_mac <$> last_mention "mac_addr" bodies)).
Proof.
  revert c. induction bodies as [|body bodies IH]; intros c.
  - by destruct c.
  - cbn [foldl last_mention]. rewrite IH. unfold apply_hello. cbn.
    by destruct (last_mention "hostname" bodies),
      (last_mention "hw_type" bodies), (last_mention "mac_addr" bodies).
Qed.

(** C8. A route that has received a sequence of hello messages, each with a
    well-formed body, is still reading, and the registry holds for its
    connection, field by field, the value of the most recent fragment that
    mentions the field, the hardware tag upper-cased by [str.upper] and the
    MAC address normalized; a field no fragment mentions is unset. *)
Theorem hello_fragments_reflected B ws user_agent datas bodies s :
  Forall2 (decodes_to_hello B) datas bodies →
  Forall well_formed_hello bodies →
  let r := websocket_endpoint B ws user_agent (Ok <$> datas) s in
  r.2 = Ok Awaiting
  ∧ registered r.1 ws
    = Some (mkClient user_agent
              (last_mention "hostname" bodies)
              (upper_tag (str_upper B) <$> last_mention "hw_type" bodies)
              (canonical_mac <$> last_mention "mac_addr" bodies)).
Proof.
  intros Hdec Hwf. cbn zeta. rewrite websocket_endpoint_unfold.
  assert (Hc : holds ws (length (clients s)) (accepted ws user_agent s)
                 (new_client user_agent)).
  { split; cbn.
    - apply lookup_insert_eq.
    - by rewrite lookup_app_r, Nat.sub_diag. }
  destruct (read_loop_hellos B ws (length (clients s)) _ datas bodies Hdec Hwf _ _ Hc)
    as (s' & -> & Hws & Hr).
  split; [done|]. unfold registered. cbn. rewrite Hws. cbn. rewrite Hr.
  rewrite foldl_apply_hello. cbn.
  by destruct (last_mention "hostname" bodies),
    (last_mention "hw_type" bodies), (last_mention "mac_addr" bodies).
Qed.

Lemma hello_fragments_reflected_witness :
  let r := websocket_endpoint demo_backend 7 (Some "Willow/1.0")
             [Ok "{'hello': {'hostname': 'kitchen'}}";
              Ok "{'hello': {'hw_type': 'esp32-s3-box', 'mac_addr': [170,187,204,221,238,255]}}"]
             (initial_server (Ok ∅)) in
  r.2 = Ok Awaiting
  ∧ registered r.1 7
    = Some (mkClient (Some "Willow/1.0") (Some (JStr "kitchen"))
              (Some (JStr "ESP32-S3-BOX")) (Some (JStr "aa:bb:cc:dd:ee:ff"))).
Proof.
  assert (Hdec : Forall2 (decodes_to_hello demo_backend)
            ["{'hello': {'hostname': 'kitchen'}}";
             "{'hello': {'hw_type': 'esp32-s3-box', 'mac_addr': [170,187,204,221,238,255]}}"]
            [ {[ "hostname" := JStr "kitchen" ]};
              <[ "hw_type" := JStr "esp32-s3-box" ]>
                {[ "mac_addr" := JList (JInt <$> [170; 187; 204; 221; 238; 255]) ]} ]).
  { repeat constructor.
    - eexists. split; [vm_compute; reflexivity|].
      eexists. repeat split; vm_compute; reflexivity.
    - eexists. split; [vm_compute; reflexivity|].
      eexists. repeat split; vm_compute; reflexivity. }
  assert (Hwf : Forall well_formed_hello
            [ {[ "hostname" := JStr "kitchen" ]};
              <[ "hw_type" := JStr "esp32-s3-box" ]>
                {[ "mac_addr" := JList (JInt <$> [170; 187; 204; 221; 238; 255]) ]} ]).
  { constructor; [split|constructor; [split|constructor]].
    - intros v Hv. vm_compute in Hv. discriminate Hv.
    - intros v Hv. vm_compute in Hv. discriminate Hv.
    - intros v Hv. vm_compute in Hv. injection Hv as <-. by eexists.
    - intros v Hv. vm_compute in Hv. injection Hv as <-. right.
      exists [170; 187; 204; 221; 238; 255]. split; [reflexivity|].
      split; [reflexivity|]. repeat constructor; lia. }
  pose proof (hello_fragments_reflected demo_backend 7 (Some "Willow/1.0")
                _ _ (initial_server (Ok ∅)) Hdec Hwf) as H.
  vm_compute in H. vm_compute. exact H.
Defined.

(** * Further properties *)

(** ** [hex_mac] beyond six bytes *)

Lemma py_fmt_02x_not_integer v :
  is_integer v = false → py_fmt_02x v = Raise TypeError.
Proof. by destruct v. Qed.

Lemma py_fmt_02x_integer v :
  is_integer v = true → ∃ h, py_fmt_02x v = Ok h.
Proof. destruct v; try discriminate; intros _; by eexists. Qed.

(** X1. [hex_mac] raises [IndexError] exactly on the lists of fewer than
    six elements. *)
Theorem hex_mac_index_error (l : list json) :
  hex_mac (JList l) = Raise IndexError ↔ (length l < 6)%nat.
Proof.
  split.
  - intros H. destruct (decide (length l < 6)%nat) as [|Hge]; [done|].
    exfalso. do 6 (destruct l as [|? l]; [cbn in Hge; lia|]).
    cbn -[py_fmt_02x] in H.
    repeat match type of H with
           | context [py_fmt_02x ?v] =>
               destruct (is_integer v) eqn:?;
               [ let h := fresh "h" in
                 let Hh := fresh "Hh" in
                 destruct (py_fmt_02x_integer v) as [h Hh]; [done|];
                 rewrite Hh in H
               | rewrite (py_fmt_02x_not_integer v) in H by done ];
               cbn -[py_fmt_02x] in H
           end; discriminate H.
  - intros H. do 6 (destruct l as [|? l]; [reflexivity|]). cbn in H. lia.
Qed.

(** X2. Of a list of six elements or more, [hex_mac] reads the first six
    only. *)
Theorem hex_mac_reads_six (l : list json) :
  (6 ≤ length l)%nat →
  hex_mac (JList l) = hex_mac (JList (take 6 l)).
Proof.
  intros H. do 6 (destruct l as [|? l]; [cbn in H; lia|]). reflexivity.
Qed.

Lemma hex_mac_reads_six_witness :
  hex_mac (JList (JInt <$> [1; 2; 3; 4; 5; 6; 7; 8]))
  = hex_mac (JList (take 6 (JInt <$> [1; 2; 3; 4; 5; 6; 7; 8]))).
Proof. apply hex_mac_reads_six. cbn. lia. Defined.

(** X3. On a list of six elements or more, [hex_mac] raises [TypeError]
    exactly when one of the first six is not an integer; a float, a string
    or [None] among them is refused, whatever the others are. *)
Theorem hex_mac_type_error (l : list json) :
  (6 ≤ length l)%nat →
  hex_mac (JList l) = Raise TypeError
  ↔ Exists (λ v, is_integer v = false) (take 6 l).
Proof.
  intros H. do 6 (destruct l as [|? l]; [cbn in H; lia|]).
  cbn -[py_fmt_02x]. clear H.
  repeat match goal with
         | |- context [py_fmt_02x ?v] =>
             destruct (is_integer v) eqn:?;
             [ let h := fresh "h" in
               destruct (py_fmt_02x_integer v) as [h ->]; [done|]
             | rewrite (py_fmt_02x_not_integer v) by done ];
             cbn -[py_fmt_02x]
         end.
  all: split; intros Hx.
  all: try discriminate Hx.
  all: try reflexivity.
  all: try (repeat first [ apply Exists_cons_hd; assumption
                         | apply Exists_cons_tl ]).
  repeat match goal with
         | H : Exists _ (_ :: _) |- _ => apply Exists_cons in H as [H|H]; [congruence|]
         end.
  by apply Exists_nil in Hx.
Qed.

Lemma hex_mac_type_error_witness :
  hex_mac (JList [JInt 1; JInt 2; JStr "03"; JInt 4; JInt 5; JInt 6])
    = Raise TypeError
  ↔ Exists (λ v, is_integer v = false)
      (take 6 [JInt 1; JInt 2; JStr "03"; JInt 4; JInt 5; JInt 6]).
Proof. apply hex_mac_type_error. cbn. lia. Defined.

Lemma hex_mac_list_is_string (l : list json) x :
  hex_mac (JList l) = Ok x → ∃ t, x = JStr t.
Proof.
  unfold hex_mac, mbind, result_bind.
  repeat match goal with
         | |- context [match ?r with inl _ => _ | inr _ => _ end] =>
             destruct r; [discriminate|]
         end.
  intros [= <-]. by eexists.
Qed.

(** X4. [hex_mac] is idempotent: what it returns, it returns unchanged when
    given it again; a MAC address already normalized is stable. *)
Theorem hex_mac_idempotent (mac x : json) :
  hex_mac mac = Ok x → hex_mac x = Ok x.
Proof.
  destruct mac; try by intros [= <-].
  intros H. by destruct (hex_mac_list_is_string _ _ H) as [t ->].
Qed.

Lemma hex_mac_idempotent_witness :
  hex_mac (JStr "0a:0b:0c:0d:0e:0f") = Ok (JStr "0a:0b:0c:0d:0e:0f").
Proof.
  apply (hex_mac_idempotent (JList (JInt <$> [10; 11; 12; 13; 14; 15]))).
  reflexivity.
Defined.

Lemma hex_digit_inj (d d' : Z) :
  0 ≤ d < 16 → 0 ≤ d' < 16 → hex_digit d = hex_digit d' → d = d'.
Proof.
  intros Hd Hd' H.
  assert (Hall : forallb (λ n, forallb (λ n',
            implb (Ascii.eqb (hex_digit (Z.of_nat n)) (hex_digit (Z.of_nat n')))
                  (Nat.eqb n n')) (seq 0 16)) (seq 0 16) = true)
    by (vm_compute; reflexivity).
  assert (Hin : In (Z.to_nat d) (seq 0 16)) by (apply in_seq; lia).
  assert (Hin' : In (Z.to_nat d') (seq 0 16)) by (apply in_seq; lia).
  pose proof (proj1 (forallb_forall _ _) Hall _ Hin) as Hrow.
  pose proof (proj1 (forallb_forall _ _) Hrow _ Hin') as Hcell.
  cbv beta in Hcell. rewrite !Z2Nat.id in Hcell by lia.
  apply Ascii.eqb_eq in H. rewrite H in Hcell. cbn in Hcell.
  apply Nat.eqb_eq in Hcell. lia.
Qed.

Lemma two_hex_inj (b b' : Z) :
  0 ≤ b < 256 → 0 ≤ b' < 256 → two_hex b = two_hex b' → b = b'.
Proof.
  intros Hb Hb' [= Hhi Hlo].
  apply hex_digit_inj in Hhi; [|Z.div_mod_to_equations; lia..].
  apply hex_digit_inj in Hlo; [|Z.div_mod_to_equations; lia..].
  Z.div_mod_to_equations. lia.
Qed.

(** X5. Normalization loses nothing: two sequences of six bytes that
    [hex_mac] maps to the same string are the same sequence. *)
Theorem hex_mac_injective (bs bs' : list Z) :
  length bs = 6%nat → length bs' = 6%nat →
  Forall (λ b, 0 ≤ b < 256) bs → Forall (λ b, 0 ≤ b < 256) bs' →
  hex_mac (JList (JInt <$> bs)) = hex_mac (JList (JInt <$> bs')) →
  bs = bs'.
Proof.
  intros Hlen Hlen' Hbs Hbs'.
  rewrite (hex_mac_bytes bs Hlen Hbs), (hex_mac_bytes bs' Hlen' Hbs').
  do 7 (destruct bs as [|? bs]; try discriminate Hlen).
  do 7 (destruct bs' as [|? bs']; try discriminate Hlen').
  repeat match goal with
         | H : Forall _ (_ :: _) |- _ => apply Forall_cons in H; destruct H
         end.
  intros Heq. injection Heq as E0 E0' E1 E1' E2 E2' E3 E3' E4 E4' E5 E5'.
  repeat f_equal; apply two_hex_inj; try done; unfold two_hex; congruence.
Qed.

Lemma hex_mac_injective_witness :
  hex_mac (JList (JInt <$> [1; 2; 3; 4; 5; 6])) = Ok (JStr "01:02:03:04:05:06")
  ∧ [1; 2; 3; 4; 5; 6] = [1; 2; 3; 4; 5; 6].
Proof.
  split; [reflexivity|].
  apply (hex_mac_injective [1; 2; 3; 4; 5; 6] [1; 2; 3; 4; 5; 6]);
    try reflexivity; repeat constructor; lia.
Defined.

(** ** The route: how it ends *)



(** X7. When [receive_text] raises one of the two transport exceptions,
    the route unregisters the connection and returns; it logs nothing and
    reads nothing more. *)
Theorem transport_failure_unregisters B ws user_agent pre rest e s s1 :
  websocket_endpoint B ws user_agent pre s = (s1, Ok Awaiting) →
  is_transport e = true →
  websocket_endpoint B ws user_agent (pre ++ Raise e :: rest) s
    = (set_connmgr (delete ws) s1, Ok Returned)
  ∧ registered (set_connmgr (delete ws) s1) ws = None
  ∧ log (set_connmgr (delete ws) s1) = log s1.
Proof.
  intros Hpre He. apply websocket_endpoint_awaiting in Hpre.
  split; [|split; [|done]].
  - rewrite websocket_endpoint_unfold, (read_loop_app _ _ _ _ _ _ _ Hpre).
    cbn [read_loop]. unfold mbind at 1, M_bind at 1, lift at 1.
    cbn beta iota. by rewrite He.
  - unfold registered. cbn. by rewrite lookup_delete_eq.
Qed.

Lemma transport_failure_unregisters_witness :
  let s := initial_server (Ok ∅) in
  let pre := [Ok "{'hello': {'hostname': 'kitchen'}}"] in
  let s1 := (websocket_endpoint demo_backend 7 None pre s).1 in
  websocket_endpoint demo_backend 7 None
    (pre ++ Raise WebSocketDisconnect :: [Ok "{'wake_end': {}}"]) s
    = (set_connmgr (delete 7%nat) s1, Ok Returned)
  ∧ registered (set_connmgr (delete 7%nat) s1) 7 = None
  ∧ log (set_connmgr (delete 7%nat) s1) = log s1.
Proof.
  intros s pre s1.
  apply (transport_failure_unregisters demo_backend 7 None pre _
           WebSocketDisconnect s s1); vm_compute; reflexivity.
Defined.

(** ** The route: the other kinds of message *)

(** X8. A [goodbye] has [ConnMgr.disconnect] remove the connection from
    the registry, and it does not end the route: the loop body returns and
    the route reads the next message. *)
Theorem goodbye_unregisters_and_reads_on B ws client data (m : gmap string json) v rest s :
  json_loads B data = Ok (JObj m) →
  m !! "wake_start" = None →
  m !! "wake_end" = None →
  m !! "notify_done" = None →
  m !! "cmd" = None →
  m !! "goodbye" = Some v →
  let s' := set_connmgr (delete ws) (add_log (debug_data data) s) in
  on_message B ws client data s = (s', Ok ())
  ∧ registered s' ws = None
  ∧ read_loop B ws client (Ok data :: rest) s = read_loop B ws client rest s'.
Proof.
  intros Hloads Hws Hwe Hnd Hcmd Hbye s'.
  assert (Hbody : on_message B ws client data s = (s', Ok ())).
  { unfold on_message, log_. rewrite bind_modify.
    next_test Hloads. next_test Hws. next_test Hwe. next_test Hnd.
    next_test Hcmd.
    by rewrite (py_in_obj_Some _ _ _ Hbye), bind_lift_Ok. }
  split; [done|]. split.
  - unfold registered. cbn. by rewrite lookup_delete_eq.
  - by apply read_loop_cons_ok.
Qed.

(** X9. A dictionary with none of the seven keys the route knows is
    ignored: nothing changes but the debug log, and the loop body
    returns. *)
Theorem unknown_message_ignored B ws client data (m : gmap string json) s :
  json_loads B data = Ok (JObj m) →
  m !! "wake_start" = None →
  m !! "wake_end" = None →
  m !! "notify_done" = None →
  m !! "cmd" = None →
  m !! "goodbye" = None →
  m !! "hello" = None →
  on_message B ws client data s = (add_log (debug_data data) s, Ok ()).
Proof.
  intros Hloads Hws Hwe Hnd Hcmd Hbye Hhello.
  unfold on_message, log_. rewrite bind_modify.
  next_test Hloads. next_test Hws. next_test Hwe. next_test Hnd.
  next_test Hcmd. next_test Hbye. by next_test Hhello.
Qed.

(** X10. In a message without [wake_start], [wake_end] and [notify_done],
    which are tested before [cmd], a [cmd] that is neither ["endpoint"] nor
    ["get_config"] is ignored, and so are the keys tested after [cmd]: a
    [goodbye] or a [hello] beside such a [cmd] is never applied. *)
Theorem unknown_cmd_ignored B ws client data (m : gmap string json) cmd s :
  json_loads B data = Ok (JObj m) →
  m !! "wake_start" = None →
  m !! "wake_end" = None →
  m !! "notify_done" = None →
  m !! "cmd" = Some cmd →
  py_eq_str cmd "endpoint" = false →
  py_eq_str cmd "get_config" = false →
  on_message B ws client data s = (add_log (debug_data data) s, Ok ()).
Proof.
  intros Hloads Hws Hwe Hnd Hcmd Hep Hgc.
  unfold on_message, log_. rewrite bind_modify.
  next_test Hloads. next_test Hws. next_test Hwe. next_test Hnd.
  rewrite (py_in_obj_Some _ _ _ Hcmd), bind_lift_Ok. cbn beta iota.
  next_test Hcmd. rewrite Hep, bind_lift_Ok. by rewrite Hgc.
Qed.

(** X11. A message that decodes to a number, a boolean or [None] makes the
    first membership test raise [TypeError]: nothing is changed but the
    debug log. *)
Theorem scalar_message_raises B ws client data msg s :
  json_loads B data = Ok msg →
  match msg with
  | JObj _ | JList _ | JStr _ => False
  | _ => True
  end →
  on_message B ws client data s = (add_log (debug_data data) s, Raise TypeError).
Proof.
  intros Hloads Hscalar.
  unfold on_message, log_. rewrite bind_modify. next_test Hloads.
  by destruct msg.
Qed.

(** X12. [get_config] is answered on the same connection with the stored
    configuration; when the configuration cannot be read the exception
    leaves the loop body and nothing is sent. *)
Theorem get_config_reply B ws client data (m : gmap string json) s :
  json_loads B data = Ok (JObj m) →
  m !! "wake_start" = None →
  m !! "wake_end" = None →
  m !! "notify_done" = None →
  m !! "cmd" = Some (JStr "get_config") →
  on_message B ws client data s
  = match config_db s with
    | inr cfg => (add_outbox (ws, build_msg_config cfg)
                    (add_log (debug_data data) s), Ok ())
    | inl e => (add_log (debug_data data) s, Raise e)
    end.
Proof.
  intros Hloads Hws Hwe Hnd Hcmd.
  unfold on_message, log_. rewrite bind_modify.
  next_test Hloads. next_test Hws. next_test Hwe. next_test Hnd.
  rewrite (py_in_obj_Some _ _ _ Hcmd), bind_lift_Ok. cbn beta iota.
  next_test Hcmd.
  change (py_eq_str (JStr "get_config") "endpoint") with false.
  cbn beta iota. rewrite bind_lift_Ok.
  change (py_eq_str (JStr "get_config") "get_config") with true.
  cbn beta iota.
  rewrite bind_get_config_db. cbn [config_db add_log].
  by destruct (config_db s).
Qed.

Lemma goodbye_unregisters_and_reads_on_witness :
  let s := (websocket_endpoint more_backend 7 None [] (initial_server (Ok ∅))).1 in
  let s' := set_connmgr (delete 7%nat) (add_log (debug_data "{'goodbye': {}}") s) in
  on_message more_backend 7 0 "{'goodbye': {}}" s = (s', Ok ())
  ∧ registered s' 7 = None
  ∧ read_loop more_backend 7 0 [Ok "{'goodbye': {}}"; Ok "{'ping': 1}"] s
    = read_loop more_backend 7 0 [Ok "{'ping': 1}"] s'.
Proof.
  apply (goodbye_unregisters_and_reads_on more_backend 7 0 _
           {[ "goodbye" := JObj ∅ ]} (JObj ∅)); vm_compute; reflexivity.
Defined.

Lemma unknown_message_ignored_witness :
  on_message more_backend 7 0 "{'ping': 1}" (initial_server (Ok ∅))
  = (add_log (debug_data "{'ping': 1}") (initial_server (Ok ∅)), Ok ()).
Proof.
  apply (unknown_message_ignored more_backend 7 0 _ {[ "ping" := JInt 1 ]});
    vm_compute; reflexivity.
Defined.

Lemma unknown_cmd_ignored_witness :
  let s := (websocket_endpoint more_backend 7 None [] (initial_server (Ok ∅))).1 in
  let data := "{'cmd': 'reboot', 'hello': {'hostname': 'attic'}}" in
  on_message more_backend 7 0 data s = (add_log (debug_data data) s, Ok ()).
Proof.
  apply (unknown_cmd_ignored more_backend 7 0 _
           (<[ "cmd" := JStr "reboot" ]>
              {[ "hello" := JObj {[ "hostname" := JStr "attic" ]} ]})
           (JStr "reboot")); vm_compute; reflexivity.
Defined.

Lemma scalar_message_raises_witness :
  on_message more_backend 7 0 "5" (initial_server (Ok ∅))
  = (add_log (debug_data "5") (initial_server (Ok ∅)), Raise TypeError).
Proof.
  apply (scalar_message_raises more_backend 7 0 "5" (JInt 5));
    [vm_compute; reflexivity | exact I].
Defined.

Lemma get_config_reply_witness :
  let s := initial_server (Ok demo_rest_config) in
  on_message more_backend 7 0 "{'cmd': 'get_config'}" s
  = (add_outbox (7%nat, build_msg_config demo_rest_config)
       (add_log (debug_data "{'cmd': 'get_config'}") s), Ok ()).
Proof.
  intros s.
  refine (get_config_reply more_backend 7 0 "{'cmd': 'get_config'}"
            {[ "cmd" := JStr "get_config" ]} s _ _ _ _ _);
    vm_compute; reflexivity.
Defined.

(** ** The route: endpoint commands *)

Lemma on_message_endpoint B ws client data (m : gmap string json) s :
  json_loads B data = Ok (JObj m) →
  m !! "wake_start" = None →
  m !! "wake_end" = None →
  m !! "notify_done" = None →
  m !! "cmd" = Some (JStr "endpoint") →
  on_message B ws client data s
  = on_cmd_endpoint B ws client (JObj m) (add_log (debug_data data) s).
Proof.
  intros Hloads Hws Hwe Hnd Hcmd.
  unfold on_message, log_. rewrite bind_modify.
  next_test Hloads. next_test Hws. next_test Hwe. next_test Hnd.
  rewrite (py_in_obj_Some _ _ _ Hcmd), bind_lift_Ok. cbn beta iota.
  by next_test Hcmd.
Qed.

(** The endpoint command up to the outcome of [send]. *)
Lemma on_cmd_endpoint_send B ws client msg d ep s :
  py_getitem msg "data" = Ok d →
  command_endpoint s = Some ep →
  on_cmd_endpoint B ws client msg s
  = let s1 := add_endpoint_call (call_send ep d ws)
                (add_log (debug_sending d ep) s) in
    match send B ep d ws (clients s !! client) with
    | inl (CommandEndpointRuntimeException cause) =>
        (add_log (error_unreachable (CommandEndpointRuntimeException cause))
           (add_outbox (ws, speech_result "WAS Command Endpoint unreachable") s1),
         Ok ())
    | inl e => (s1, Raise e)
    | inr None => (s1, Ok ())
    | inr (Some raw) =>
        let s2 := add_endpoint_call (call_parse_response ep raw) s1 in
        match parse_response B ep raw with
        | inl (CommandEndpointRuntimeException cause) =>
            (add_log (error_unreachable (CommandEndpointRuntimeException cause))
               (add_outbox (ws, speech_result "WAS Command Endpoint unreachable") s2),
             Ok ())
        | inl e => (s2, Raise e)
        | inr None => (add_log (debug_got_response None) s2, Ok ())
        | inr (Some text) =>
            (add_outbox (ws, Text text)
               (add_log (debug_got_response (Some text)) s2), Ok ())
        end
    end.
Proof.
  intros Hdata Hep. unfold on_cmd_endpoint. rewrite bind_gets, Hep.
  rewrite !Hdata, bind_lift_Ok. unfold log_. rewrite bind_modify.
  unfold try_except. rewrite bind_lift_Ok, bind_gets, bind_modify.
  cbn [clients add_log add_endpoint_call].
  destruct (send B ep d ws (clients s !! client)) as [e|[raw|]]; cbn zeta.
  - by destruct e.
  - rewrite bind_lift_Ok. cbn beta iota. rewrite bind_modify.
    destruct (parse_response B ep raw) as [e|[text|]].
    + by destruct e.
    + reflexivity.
    + reflexivity.
  - reflexivity.
Qed.

(** X13. When [send] returns [None] no reply is owed: nothing is written to
    the connection and [parse_response] is not called. *)
Theorem endpoint_no_reply_owed B ws client data (m : gmap string json) d ep s :
  json_loads B data = Ok (JObj m) →
  m !! "wake_start" = None →
  m !! "wake_end" = None →
  m !! "notify_done" = None →
  m !! "cmd" = Some (JStr "endpoint") →
  m !! "data" = Some d →
  command_endpoint s = Some ep →
  send B ep d ws (clients s !! client) = Ok None →
  on_message B ws client data s
    = (add_endpoint_call (call_send ep d ws)
         (add_log (debug_sending d ep) (add_log (debug_data data) s)), Ok ())
  ∧ outbox (on_message B ws client data s).1 = outbox s
  ∧ endpoint_calls (on_message B ws client data s).1
    = endpoint_calls s ++ [call_send ep d ws].
Proof.
  intros Hloads Hws Hwe Hnd Hcmd Hdata Hep Hsend.
  rewrite (on_message_endpoint _ _ _ _ _ _ Hloads Hws Hwe Hnd Hcmd).
  rewrite (on_cmd_endpoint_send B ws client (JObj m) d ep
             (add_log (debug_data data) s) (py_getitem_obj _ _ _ Hdata) Hep).
  cbn [clients add_log]. by rewrite Hsend.
Qed.

Lemma endpoint_no_reply_owed_witness :
  let ep := HomeAssistantWebSocketEndpoint (JStr "hass") (JInt 8123)
              (JBool false) (JStr "token") in
  let data := "{'cmd': 'endpoint', 'data': 'lights on'}" in
  let s := server_with ep in
  on_message more_backend 7 0 data s
    = (add_endpoint_call (call_send ep (JStr "lights on") 7)
         (add_log (debug_sending (JStr "lights on") ep)
            (add_log (debug_data data) s)), Ok ())
  ∧ outbox (on_message more_backend 7 0 data s).1 = outbox s
  ∧ endpoint_calls (on_message more_backend 7 0 data s).1
    = endpoint_calls s ++ [call_send ep (JStr "lights on") 7].
Proof.
  apply (endpoint_no_reply_owed more_backend 7 0 _
           (<[ "cmd" := JStr "endpoint" ]> {[ "data" := JStr "lights on" ]}));
    vm_compute; reflexivity.
Defined.

(** X14. When [send] returns a body, what [parse_response] makes of it is
    written to the same connection, and nothing is written when it makes
    [None] of it. *)
Theorem endpoint_reply_relayed B ws client data (m : gmap string json) d ep raw resp s :
  json_loads B data = Ok (JObj m) →
  m !! "wake_start" = None →
  m !! "wake_end" = None →
  m !! "notify_done" = None →
  m !! "cmd" = Some (JStr "endpoint") →
  m !! "data" = Some d →
  command_endpoint s = Some ep →
  send B ep d ws (clients s !! client) = Ok (Some raw) →
  parse_response B ep raw = Ok resp →
  (on_message B ws client data s).2 = Ok ()
  ∧ outbox (on_message B ws client data s).1
    = outbox s ++ match resp with
                  | Some text => [(ws, Text text)]
                  | None => []
                  end
  ∧ endpoint_calls (on_message B ws client data s).1
    = endpoint_calls s ++ [call_send ep d ws; call_parse_response ep raw].
Proof.
  intros Hloads Hws Hwe Hnd Hcmd Hdata Hep Hsend Hparse.
  rewrite (on_message_endpoint _ _ _ _ _ _ Hloads Hws Hwe Hnd Hcmd).
  rewrite (on_cmd_endpoint_send B ws client (JObj m) d ep
             (add_log (debug_data data) s) (py_getitem_obj _ _ _ Hdata) Hep).
  cbn [clients add_log]. rewrite Hsend. cbn zeta. rewrite Hparse.
  destruct resp; cbn; rewrite <- ?app_assoc, ?app_nil_r; done.
Qed.

Lemma endpoint_reply_relayed_witness :
  let ep := RestEndpoint (JStr "http://rest/api") (mkRestConfig None None None None) in
  let data := "{'cmd': 'endpoint', 'data': 'lights on'}" in
  let s := server_with ep in
  (on_message more_backend 7 0 data s).2 = Ok ()
  ∧ outbox (on_message more_backend 7 0 data s).1
    = outbox s ++ [(7%nat, Text "{'speech': 'done'}")]
  ∧ endpoint_calls (on_message more_backend 7 0 data s).1
    = endpoint_calls s ++ [call_send ep (JStr "lights on") 7;
                           call_parse_response ep "{'speech': 'done'}"].
Proof.
  intros ep data s.
  apply (endpoint_reply_relayed more_backend 7 0 data
           (<[ "cmd" := JStr "endpoint" ]> {[ "data" := JStr "lights on" ]})
           (JStr "lights on") ep "{'speech': 'done'}" (Some "{'speech': 'done'}") s);
    vm_compute; reflexivity.
Defined.

(** X15. An endpoint command without [data], received while an adapter is
    installed, raises [KeyError] before the adapter is called: nothing is
    sent to the backend and nothing is written to the connection. *)
Theorem endpoint_missing_data B ws client data (m : gmap string json) ep s :
  json_loads B data = Ok (JObj m) →
  m !! "wake_start" = None →
  m !! "wake_end" = None →
  m !! "notify_done" = None →
  m !! "cmd" = Some (JStr "endpoint") →
  m !! "data" = None →
  command_endpoint s = Some ep →
  on_message B ws client data s
  = (add_log (debug_data data) s, Raise (KeyError "data")).
Proof.
  intros Hloads Hws Hwe Hnd Hcmd Hdata Hep.
  rewrite (on_message_endpoint _ _ _ _ _ _ Hloads Hws Hwe Hnd Hcmd).
  unfold on_cmd_endpoint. rewrite bind_gets. cbn [command_endpoint add_log].
  rewrite Hep. cbn [py_getitem]. by rewrite Hdata.
Qed.

Lemma endpoint_missing_data_witness :
  let ep := RestEndpoint (JStr "http://rest/api") (mkRestConfig None None None None) in
  on_message more_backend 7 0 "{'cmd': 'endpoint'}" (server_with ep)
  = (add_log (debug_data "{'cmd': 'endpoint'}") (server_with ep),
     Raise (KeyError "data")).
Proof.
  intros ep.
  apply (endpoint_missing_data more_backend 7 0 _
           {[ "cmd" := JStr "endpoint" ]} ep); vm_compute; reflexivity.
Defined.

(** X16. Only the endpoint's runtime exception is answered.  Any other
    exception raised by [send] leaves the loop body: no speech result is
    written and nothing is logged about it there. *)
Theorem endpoint_other_exception B ws client data (m : gmap string json) d ep e s :
  json_loads B data = Ok (JObj m) →
  m !! "wake_start" = None →
  m !! "wake_end" = None →
  m !! "notify_done" = None →
  m !! "cmd" = Some (JStr "endpoint") →
  m !! "data" = Some d →
  command_endpoint s = Some ep →
  send B ep d ws (clients s !! client) = Raise e →
  (∀ cause, e ≠ CommandEndpointRuntimeException cause) →
  on_message B ws client data s
  = (add_endpoint_call (call_send ep d ws)
       (add_log (debug_sending d ep) (add_log (debug_data data) s)), Raise e).
Proof.
  intros Hloads Hws Hwe Hnd Hcmd Hdata Hep Hsend He.
  rewrite (on_message_endpoint _ _ _ _ _ _ Hloads Hws Hwe Hnd Hcmd).
  rewrite (on_cmd_endpoint_send B ws client (JObj m) d ep
             (add_log (debug_data data) s) (py_getitem_obj _ _ _ Hdata) Hep).
  cbn [clients add_log]. rewrite Hsend. cbn zeta.
  destruct e; try reflexivity. by destruct (He cause).
Qed.

Lemma endpoint_other_exception_witness :
  let ep := MqttEndpoint (mkMqttConfig None None None None None None None) in
  let data := "{'cmd': 'endpoint', 'data': 'lights on'}" in
  let s := server_with ep in
  on_message more_backend 7 0 data s
  = (add_endpoint_call (call_send ep (JStr "lights on") 7)
       (add_log (debug_sending (JStr "lights on") ep)
          (add_log (debug_data data) s)),
     Raise (OtherException "broker down")).
Proof.
  apply (endpoint_other_exception more_backend 7 0 _
           (<[ "cmd" := JStr "endpoint" ]> {[ "data" := JStr "lights on" ]}));
    try (vm_compute; reflexivity).
  intros cause. discriminate.
Defined.

(** ** What a device message cannot do *)

Lemma preserves_deref {X A C} (part : Server → X) (store : Server → list A)
    r (f : A → C) :
  preserves part (deref store r f).
Proof. intros s. unfold deref. by destruct (store s !! r). Qed.

Lemma preserves_alter_sessions {X} (part : Server → X) f i :
  (∀ l s, length l = length (sessions s) →
          part (set_sessions (λ _, l) s) = part s) →
  preserves part (modify (set_sessions (alter f i))).
Proof.
  intros Hp s. cbn.
  rewrite <- (Hp (alter f i (sessions s)) s) by apply length_alter.
  reflexivity.
Qed.

(** One step of a proof that a statement leaves a part of the state alone. *)
Ltac preserves_step :=
  first
    [ apply preserves_bind; [|intros ?]
    | apply preserves_lift
    | apply preserves_ret
    | apply preserves_raise
    | apply preserves_gets
    | apply preserves_get_config_db
    | apply preserves_deref
    | apply preserves_fmap
    | apply preserves_update_client; reflexivity
    | apply preserves_rest_config_set; reflexivity
    | apply preserves_modify; intros ?; reflexivity
    | apply preserves_alter_sessions; intros ? ? ?;
      first [ reflexivity | unfold tasks_view; cbn; congruence ]
    | apply preserves_try_except; [|intros ? ? ?]
    | match goal with
      | |- preserves _ (if ?b then _ else _) => destruct b
      | |- preserves _ (match ?x with _ => _ end) => destruct x
      | H : match ?e with _ => _ end = Some _ |- _ =>
          destruct e; try discriminate H
      | H : Some _ = Some _ |- _ => injection H as <-
      end ].

Ltac solve_preserves := repeat preserves_step.

(** X17. No message of a device changes the installed adapter or the
    stored configuration, whatever it decodes to and however its handling
    ends. *)
Theorem message_keeps_setup B ws client data s :
  server_setup (on_message B ws client data s).1 = server_setup s.
Proof.
  revert s. change (preserves server_setup (on_message B ws client data)).
  unfold on_message, on_wake_start, select_wake_session, record_wake_event,
    on_cmd_endpoint, on_hello, hello_hostname, hello_hw_type, hello_mac_addr,
    log_, send_text, connmgr_disconnect, start_wake_session.
  solve_preserves.
Qed.

(** X18. [wake_start] is tested first: a message that carries it is
    handled as a wake signal only.  Whatever else it carries, the registry,
    the scheduled writes and the calls on the adapter and on the
    notification queue are as they were. *)
Theorem wake_start_takes_precedence B ws client data msg s :
  json_loads B data = Ok msg →
  py_in "wake_start" msg = Ok true →
  outside_wake (on_message B ws client data s).1 = outside_wake s.
Proof.
  intros Hloads Hws. rewrite (on_message_wake_start _ _ _ _ _ _ Hloads Hws).
  change (outside_wake s) with (outside_wake (add_log (debug_data data) s)).
  generalize (add_log (debug_data data) s).
  change (preserves outside_wake (on_wake_start ws msg)).
  unfold on_wake_start, select_wake_session, record_wake_event,
    start_wake_session.
  solve_preserves.
Qed.

Lemma wake_start_takes_precedence_witness :
  let s := (websocket_endpoint more_backend 7 None [] (initial_server (Ok ∅))).1 in
  let data := "{'wake_start': {'wake_volume': 3}, 'hello': {'hostname': 'attic'}}" in
  outside_wake (on_message more_backend 7 0 data s).1 = outside_wake s.
Proof.
  apply (wake_start_takes_precedence more_backend 7 0 _
           (JObj (<[ "wake_start" := JObj {[ "wake_volume" := JInt 3 ]} ]>
                    {[ "hello" := JObj {[ "hostname" := JStr "attic" ]} ]})));
    vm_compute; reflexivity.
Defined.

Lemma one_reply_preserves {A} ws (m : M A) :
  preserves outbox m → one_reply ws m.
Proof. intros Hm s. left. apply Hm. Qed.

Lemma one_reply_bind {A C} ws (m : M A) (k : A → M C) :
  preserves outbox m → (∀ a, one_reply ws (k a)) → one_reply ws (m ≫= k).
Proof.
  intros Hm Hk s. unfold mbind, M_bind. specialize (Hm s).
  destruct (m s) as [s' [e|a]]; cbn in *.
  - by left.
  - specialize (Hk a s'). unfold at_most_one_reply in *. by rewrite <- Hm.
Qed.

Lemma one_reply_on_cmd_endpoint B ws client msg :
  one_reply ws (on_cmd_endpoint B ws client msg).
Proof.
  intros s. destruct (command_endpoint s) as [ep|] eqn:Hep.
  - destruct (py_getitem msg "data") as [e|d] eqn:Hdata.
    + left. unfold on_cmd_endpoint. by rewrite bind_gets, Hep, Hdata.
    + rewrite (on_cmd_endpoint_send B ws client msg d ep s Hdata Hep). cbn zeta.
      destruct (send B ep d ws (clients s !! client)) as [e|[raw|]].
      * destruct e; try by left. right. by eexists.
      * destruct (parse_response B ep raw) as [e|[text|]].
        -- destruct e; try by left. right. by eexists.
        -- right. by eexists.
        -- by left.
      * by left.
  - right. unfold on_cmd_endpoint. rewrite bind_gets, Hep. by eexists.
Qed.

Lemma one_reply_get_config ws :
  one_reply ws (cfg ← get_config_db; send_text ws (build_msg_config cfg)).
Proof.
  intros s. rewrite bind_get_config_db.
  destruct (config_db s) as [e|cfg]; [by left|]. right. by eexists.
Qed.

(** X19. A message gets at most one reply, and the reply goes to the
    connection the message came from: no handling of a message writes to
    another device. *)
Theorem reply_only_to_sender B ws client data s :
  at_most_one_reply ws s (on_message B ws client data s).1.
Proof.
  revert s. change (one_reply ws (on_message B ws client data)).
  unfold on_message.
  repeat first
    [ apply one_reply_on_cmd_endpoint
    | apply one_reply_get_config
    | apply one_reply_bind;
      [ unfold log_; solve [solve_preserves] | intros ? ]
    | match goal with
      | |- one_reply _ (if ?b then _ else _) => destruct b
      end
    | apply one_reply_preserves;
      unfold on_wake_start, select_wake_session, record_wake_event,
        on_hello, hello_hostname, hello_hw_type, hello_mac_addr,
        connmgr_disconnect, start_wake_session;
      solve [solve_preserves] ].
Qed.

(** ** Cleanup tasks *)

Lemma keeps_tasks_preserves {A} (m : M A) :
  preserves tasks_view m → keeps_tasks m.
Proof.
  intros Hm s Hinv. specialize (Hm s). unfold tasks_view, tasks_inv in *.
  injection Hm as Hlen Htasks. by rewrite Htasks, Hlen.
Qed.

Lemma keeps_tasks_bind {A C} (m : M A) (k : A → M C) :
  keeps_tasks m → (∀ a, keeps_tasks (k a)) → keeps_tasks (m ≫= k).
Proof.
  intros Hm Hk s Hinv. unfold mbind, M_bind. specialize (Hm s Hinv).
  destruct (m s) as [s' [e|a]]; cbn in *; [done|]. by apply Hk.
Qed.

Lemma keeps_tasks_start : keeps_tasks start_wake_session.
Proof.
  intros s Hinv. unfold tasks_inv in *. cbn.
  by rewrite Hinv, length_app, Nat.add_1_r, seq_S.
Qed.

Lemma keeps_tasks_on_wake_start ws msg : keeps_tasks (on_wake_start ws msg).
Proof.
  unfold on_wake_start. apply keeps_tasks_bind.
  - unfold select_wake_session. apply keeps_tasks_bind.
    + apply keeps_tasks_preserves. solve_preserves.
    + intros [i|]; [|apply keeps_tasks_start].
      apply keeps_tasks_bind; [apply keeps_tasks_preserves; solve_preserves|].
      intros []; [apply keeps_tasks_start|].
      apply keeps_tasks_preserves. solve_preserves.
  - intros _. apply keeps_tasks_preserves.
    unfold record_wake_event. solve_preserves.
Qed.

Lemma keeps_tasks_on_message B ws client data :
  keeps_tasks (on_message B ws client data).
Proof.
  unfold on_message.
  apply keeps_tasks_bind; [apply keeps_tasks_preserves; unfold log_; solve_preserves|].
  intros _.
  apply keeps_tasks_bind; [apply keeps_tasks_preserves; solve_preserves|].
  intros msg.
  apply keeps_tasks_bind; [apply keeps_tasks_preserves; solve_preserves|].
  intros []; [apply keeps_tasks_on_wake_start|].
  apply keeps_tasks_preserves.
  unfold on_cmd_endpoint, on_hello, hello_hostname, hello_hw_type,
    hello_mac_addr, log_, send_text, connmgr_disconnect.
  solve_preserves.
Qed.

Lemma init_command_endpoint_tasks_view B :
  preserves tasks_view (init_command_endpoint B).
Proof.
  unfold init_command_endpoint, stop_previous, install_from_config,
    user_config_get, user_config_has, log_.
  solve_preserves.
Qed.

Lemma step_tasks_inv B s s' : step B s s' → tasks_inv s → tasks_inv s'.
Proof.
  intros Hstep Hinv. destruct Hstep.
  - rewrite websocket_endpoint_unfold. by cbn.
  - by apply keeps_tasks_on_message.
  - done.
  - done.
  - unfold tasks_inv in *. cbn. by rewrite length_alter.
  - by apply (keeps_tasks_preserves _ (init_command_endpoint_tasks_view B)).
  - done.
Qed.

(** X20. Every wake session the process has made has exactly one cleanup
    task, made with it, and no other cleanup task exists: in every state the
    process can reach the tasks are those of the stored sessions, in the
    order the sessions were made. *)
Theorem cleanup_task_per_session B s :
  reachable B s → cleanup_tasks s = seq 0 (length (sessions s)).
Proof.
  intros [cfg Hrtc]. revert s Hrtc. apply rtc_ind_r.
  - reflexivity.
  - intros s s' _ Hstep Hinv. by eapply step_tasks_inv.
Qed.

Lemma cleanup_task_per_session_witness :
  let s := (on_message demo_backend 7 0 "{'wake_start': {'wake_volume': 3}}"
              (initial_server (Ok ∅))).1 in
  reachable demo_backend s ∧ cleanup_tasks s = seq 0 (length (sessions s)).
Proof.
  intros s.
  assert (Hreach : reachable demo_backend s).
  { exists (Ok ∅). eapply rtc_l; [apply step_message | apply rtc_refl]. }
  split; [exact Hreach|]. exact (cleanup_task_per_session demo_backend s Hreach).
Defined.

(** ** [init_command_endpoint]: the other configurations *)

Lemma init_after_stop B s :
  ∃ s0, init_command_endpoint B s = install_from_config s0
        ∧ config_db s0 = config_db s
        ∧ command_endpoint s0 = command_endpoint s
        ∧ log s0 = log s
        ∧ endpoint_calls s0
          = endpoint_calls s ++ match command_endpoint s with
                                | Some old => [call_stop old]
                                | None => []
                                end.
Proof.
  unfold init_command_endpoint, mbind, M_bind.
  destruct (command_endpoint s) as [old|] eqn:Hep.
  - rewrite (stop_previous_installed B s old Hep). eexists.
    split; [reflexivity|]. cbn. by rewrite Hep.
  - rewrite (stop_previous_none B s Hep). exists s.
    rewrite Hep, app_nil_r. done.
Qed.

Lemma install_from_config_endpoint_calls :
  preserves endpoint_calls install_from_config.
Proof.
  unfold install_from_config, user_config_get, user_config_has, log_.
  solve_preserves.
Qed.

(** X21. Whatever the configuration is and however the initialisation
    ends, the only call it makes on an adapter is one [stop()] on the
    adapter that was installed; with none installed it makes no call. *)
Theorem init_stops_previous_once B s :
  endpoint_calls (init_command_endpoint B s).1
  = endpoint_calls s ++ match command_endpoint s with
                        | Some old => [call_stop old]
                        | None => []
                        end.
Proof.
  destruct (init_after_stop B s) as (s0 & -> & _ & _ & _ & <-).
  apply install_from_config_endpoint_calls.
Qed.

(** The configuration is read and the endpoint mode is enabled. *)
Ltac enter_install Hcfg Hmode Htruthy :=
  unfold install_from_config, user_config_has, user_config_get;
  rewrite bind_get_config_db, Hcfg; cbn beta iota;
  rewrite (py_in_obj_Some _ _ _ Hmode), bind_lift_Ok; cbn beta iota;
  rewrite bind_fmap_lift, (py_getitem_obj _ _ _ Hmode); cbn beta iota;
  rewrite Htruthy; unfold log_; rewrite bind_modify.

(** X22. When [was_mode] is absent from the configuration or false, the
    initialisation installs nothing and removes nothing: the adapter that
    was installed, which has just been stopped, stays installed. *)
Theorem disabled_mode_keeps_adapter B s (cfg : gmap string json) :
  config_db s = Ok cfg →
  match cfg !! "was_mode" with
  | Some mode => py_truthy mode = false
  | None => True
  end →
  (init_command_endpoint B s).2 = Ok ()
  ∧ command_endpoint (init_command_endpoint B s).1 = command_endpoint s
  ∧ log (init_command_endpoint B s).1 = log s.
Proof.
  intros Hcfg Hmode.
  destruct (init_after_stop B s) as (s0 & -> & Hcfg0 & <- & <- & _).
  rewrite <- Hcfg0 in Hcfg. clear Hcfg0.
  unfold install_from_config, user_config_has, user_config_get.
  rewrite bind_get_config_db, Hcfg. cbn beta iota.
  destruct (cfg !! "was_mode") as [mode|] eqn:Hm.
  - rewrite (py_in_obj_Some _ _ _ Hm), bind_lift_Ok. cbn beta iota.
    rewrite bind_fmap_lift, (py_getitem_obj _ _ _ Hm). cbn beta iota.
    by rewrite Hmode.
  - by rewrite (py_in_obj_None _ _ Hm), bind_lift_Ok.
Qed.

Lemma disabled_mode_keeps_adapter_witness :
  let old := OpenhabEndpoint (JStr "http://openhab:8080") (JStr "secret") in
  let s := set_config_db (Ok {[ "was_mode" := JBool false ]}) (server_with old) in
  (init_command_endpoint demo_backend s).2 = Ok ()
  ∧ command_endpoint (init_command_endpoint demo_backend s).1 = Some old
  ∧ log (init_command_endpoint demo_backend s).1 = log s.
Proof.
  intros old s.
  apply (disabled_mode_keeps_adapter demo_backend s {[ "was_mode" := JBool false ]});
    vm_compute; reflexivity.
Defined.

(** X23. With the endpoint mode enabled, a configuration without
    [command_endpoint] makes the initialisation raise [KeyError], and one
    that names none of the four kinds installs nothing; in both cases the
    adapter that was installed stays. *)
Theorem unknown_kind_installs_nothing B s (cfg : gmap string json) mode :
  config_db s = Ok cfg →
  cfg !! "was_mode" = Some mode →
  py_truthy mode = true →
  match cfg !! "command_endpoint" with
  | Some kind =>
      py_eq_str kind "Home Assistant" = false ∧ py_eq_str kind "MQTT" = false
      ∧ py_eq_str kind "openHAB" = false ∧ py_eq_str kind "REST" = false
  | None => True
  end →
  (init_command_endpoint B s).2
    = match cfg !! "command_endpoint" with
      | Some _ => Ok ()
      | None => Raise (KeyError "command_endpoint")
      end
  ∧ command_endpoint (init_command_endpoint B s).1 = command_endpoint s.
Proof.
  intros Hcfg Hmode Htruthy Hkind.
  destruct (init_after_stop B s) as (s0 & -> & Hcfg0 & <- & _ & _).
  rewrite <- Hcfg0 in Hcfg. clear Hcfg0.
  enter_install Hcfg Hmode Htruthy.
  destruct (cfg !! "command_endpoint") as [kind|] eqn:Hk.
  - destruct Hkind as (H1 & H2 & H3 & H4).
    rewrite !(py_getitem_obj _ _ _ Hk), !bind_lift_Ok.
    rewrite H1, bind_lift_Ok, H2, bind_lift_Ok, H3, bind_lift_Ok, H4. done.
  - cbn [py_getitem]. rewrite Hk. done.
Qed.

Lemma unknown_kind_installs_nothing_witness :
  let old := OpenhabEndpoint (JStr "http://openhab:8080") (JStr "secret") in
  let cfg : gmap string json :=
    <[ "was_mode" := JBool true ]> {[ "command_endpoint" := JStr "Zigbee" ]} in
  let s := set_config_db (Ok cfg) (server_with old) in
  (init_command_endpoint demo_backend s).2 = Ok ()
  ∧ command_endpoint (init_command_endpoint demo_backend s).1 = Some old.
Proof.
  intros old cfg s.
  refine (unknown_kind_installs_nothing demo_backend s cfg (JBool true) _ _ _ _);
    vm_compute; auto.
Defined.

(** X24. For "Home Assistant" the adapter is built from [hass_host],
    [hass_port], [hass_tls] and [hass_token].  When one of them is missing
    the initialisation raises [KeyError] for the first missing one, in that
    order, and the adapter that was installed stays. *)
Theorem home_assistant_install B s (cfg : gmap string json) mode :
  config_db s = Ok cfg →
  cfg !! "was_mode" = Some mode →
  py_truthy mode = true →
  cfg !! "command_endpoint" = Some (JStr "Home Assistant") →
  let r := init_command_endpoint B s in
  match find (missing cfg) ["hass_host"; "hass_port"; "hass_tls"; "hass_token"] with
  | Some key =>
      r.2 = Raise (KeyError key) ∧ command_endpoint r.1 = command_endpoint s
  | None =>
      r.2 = Ok ()
      ∧ command_endpoint r.1
        = (host ← cfg !! "hass_host"; port ← cfg !! "hass_port";
           tls ← cfg !! "hass_tls"; token ← cfg !! "hass_token";
           Some (HomeAssistantWebSocketEndpoint host port tls token))
  end.
Proof.
  intros Hcfg Hmode Htruthy Hkind. cbn zeta.
  destruct (init_after_stop B s) as (s0 & -> & Hcfg0 & <- & _ & _).
  rewrite <- Hcfg0 in Hcfg. clear Hcfg0.
  enter_install Hcfg Hmode Htruthy.
  rewrite !(py_getitem_obj _ _ _ Hkind), !bind_lift_Ok.
  change (py_eq_str (JStr "Home Assistant") "Home Assistant") with true.
  cbn beta iota. unfold missing. cbn [find py_getitem].
  destruct (cfg !! "hass_host") as [host|]; cbn; [|done].
  destruct (cfg !! "hass_port") as [port|]; cbn; [|done].
  destruct (cfg !! "hass_tls") as [tls|]; cbn; [|done].
  destruct (cfg !! "hass_token") as [token|]; cbn; done.
Qed.

Lemma home_assistant_install_witness :
  let old := OpenhabEndpoint (JStr "http://openhab:8080") (JStr "secret") in
  let s := set_config_db (Ok demo_hass_config) (server_with old) in
  (init_command_endpoint demo_backend s).2 = Raise (KeyError "hass_tls")
  ∧ command_endpoint (init_command_endpoint demo_backend s).1 = Some old.
Proof.
  intros old s.
  pose proof (home_assistant_install demo_backend s demo_hass_config (JBool true))
    as H.
  vm_compute in H. vm_compute. apply H; reflexivity.
Defined.

(** X25. For "MQTT" the adapter is built from the five required keys, and
    the password and the user name are set exactly when their keys are in
    the configuration. *)
Theorem mqtt_install B s (cfg : gmap string json) mode auth host port tls topic :
  config_db s = Ok cfg →
  cfg !! "was_mode" = Some mode →
  py_truthy mode = true →
  cfg !! "command_endpoint" = Some (JStr "MQTT") →
  cfg !! "mqtt_auth_type" = Some auth →
  cfg !! "mqtt_host" = Some host →
  cfg !! "mqtt_port" = Some port →
  cfg !! "mqtt_tls" = Some tls →
  cfg !! "mqtt_topic" = Some topic →
  (init_command_endpoint B s).2 = Ok ()
  ∧ command_endpoint (init_command_endpoint B s).1
    = Some (MqttEndpoint
              (mkMqttConfig (Some auth) (Some host) (Some port) (Some tls)
                 (Some topic) (cfg !! "mqtt_password") (cfg !! "mqtt_username"))).
Proof.
  intros Hcfg Hmode Htruthy Hkind Hauth Hhost Hport Htls Htopic.
  destruct (init_after_stop B s) as (s0 & -> & Hcfg0 & _ & _ & _).
  rewrite <- Hcfg0 in Hcfg. clear Hcfg0.
  enter_install Hcfg Hmode Htruthy.
  rewrite !(py_getitem_obj _ _ _ Hkind), !bind_lift_Ok.
  change (py_eq_str (JStr "MQTT") "Home Assistant") with false.
  cbn beta iota. rewrite bind_lift_Ok.
  change (py_eq_str (JStr "MQTT") "MQTT") with true. cbn beta iota.
  rewrite (py_getitem_obj _ _ _ Hauth), (py_getitem_obj _ _ _ Hhost),
    (py_getitem_obj _ _ _ Hport), (py_getitem_obj _ _ _ Htls),
    (py_getitem_obj _ _ _ Htopic), !bind_lift_Ok, !(py_in_obj cfg).
  destruct (cfg !! "mqtt_password") as [password|] eqn:Hp;
    destruct (cfg !! "mqtt_username") as [username|] eqn:Hu;
    rewrite ?(py_getitem_obj _ _ _ Hp), ?(py_getitem_obj _ _ _ Hu);
    by vm_compute.
Qed.

Lemma mqtt_install_witness :
  let r := init_command_endpoint demo_backend
             (initial_server (Ok demo_mqtt_config)) in
  r.2 = Ok ()
  ∧ command_endpoint r.1
    = Some (MqttEndpoint
              (mkMqttConfig (Some (JStr "userpw")) (Some (JStr "broker"))
                 (Some (JInt 1883)) (Some (JBool false)) (Some (JStr "willow"))
                 None (Some (JStr "willow")))).
Proof.
  pose proof (mqtt_install demo_backend (initial_server (Ok demo_mqtt_config))
                demo_mqtt_config (JBool true) (JStr "userpw") (JStr "broker")
                (JInt 1883) (JBool false) (JStr "willow")) as H.
  vm_compute in H. vm_compute. apply H; reflexivity.
Defined.

(** X26. When the stored configuration cannot be read, the exception
    leaves [init_command_endpoint], after the installed adapter has been
    stopped: nothing is installed and nothing is logged. *)
Theorem unreadable_config_raises B s e :
  config_db s = Raise e →
  (init_command_endpoint B s).2 = Raise e
  ∧ command_endpoint (init_command_endpoint B s).1 = command_endpoint s
  ∧ log (init_command_endpoint B s).1 = log s.
Proof.
  intros Hcfg.
  destruct (init_after_stop B s) as (s0 & -> & Hcfg0 & <- & <- & _).
  rewrite <- Hcfg0 in Hcfg. unfold install_from_config.
  by rewrite bind_get_config_db, Hcfg.
Qed.

Lemma unreadable_config_raises_witness :
  let old := OpenhabEndpoint (JStr "http://openhab:8080") (JStr "secret") in
  let s := set_config_db (Raise (OtherException "database is locked"))
             (server_with old) in
  (init_command_endpoint demo_backend s).2
    = Raise (OtherException "database is locked")
  ∧ command_endpoint (init_command_endpoint demo_backend s).1 = Some old
  ∧ log (init_command_endpoint demo_backend s).1 = log s.
Proof.
  intros old s.
  apply (unreadable_config_raises demo_backend s
           (OtherException "database is locked")). reflexivity.
Defined.

(** ** [migrate_user_files] *)

Lemma migrate_user_file_skip O name f :
  isfile O f name = false ∨ isfile O f ("storage/" ++ name)%string = true →
  migrate_user_file O name f = (f, Ok ()).
Proof.
  intros [H|H]; unfold migrate_user_file.
  - by rewrite H.
  - rewrite H. by destruct (isfile O f name).
Qed.

Lemma migrated_is_fixed O (f : files O) :
  migrated O f → migrate_user_files O f = (f, Ok ()).
Proof.
  intros H. unfold migrate_user_files, user_files. cbn [for_each].
  rewrite !migrate_user_file_skip; [done|apply H; set_solver..].
Qed.

(** X27. The migration never overwrites and never moves what is not there:
    when each of the three user files is absent from the working directory
    or already has its file under [storage/], [move] is not called and the
    file system is left as it is. *)
Theorem migrate_user_files_nothing_to_do O (f : files O) :
  migrated O f → migrate_user_files O f = (f, Ok ()).
Proof. apply migrated_is_fixed. Qed.

Lemma migrate_user_files_nothing_to_do_witness :
  let f : gmap string string := {[ "storage/user_nvs.json" := "old" ]} in
  migrate_user_files demo_fs f = (f, Ok ()).
Proof.
  intros f. apply (migrate_user_files_nothing_to_do demo_fs f).
  intros name Hname. left.
  repeat (apply elem_of_cons in Hname as [->|Hname]; [reflexivity|]).
  by apply elem_of_nil in Hname.
Defined.

Lemma migrate_user_file_settles O name f f' :
  move_removes_source O →
  name ≠ ("storage/" ++ name)%string →
  migrate_user_file O name f = (f', Ok ()) →
  isfile O f' name = false ∨ isfile O f' ("storage/" ++ name)%string = true.
Proof.
  intros Hrm Hne. unfold migrate_user_file.
  destruct (isfile O f name) eqn:Hsrc.
  - destruct (isfile O f ("storage/" ++ name)%string) eqn:Hdst; cbn.
    + intros [= <-]. by right.
    + intros Hmove. left. by eapply Hrm.
  - intros [= <-]. by left.
Qed.

Lemma migrate_user_file_local O name f f' r p :
  move_is_local O →
  migrate_user_file O name f = (f', r) →
  p ≠ name → is_prefix ("storage/" ++ name)%string p = false →
  isfile O f' p = isfile O f p.
Proof.
  intros Hloc. unfold migrate_user_file.
  destruct (isfile O f name); [|by intros [= <- _]].
  destruct (isfile O f ("storage/" ++ name)%string); cbn; [by intros [= <- _]|].
  intros Hmove Hp Hpre. by eapply Hloc.
Qed.

(** X28. A migration that returns leaves nothing to migrate, so that
    running it again, as every start of the server does, moves nothing:
    this holds for every file system whose [move] removes its source and
    touches no path outside its source and its destination. *)
Theorem migrate_user_files_idempotent O (f f1 : files O) :
  move_removes_source O →
  move_is_local O →
  migrate_user_files O f = (f1, Ok ()) →
  migrated O f1 ∧ migrate_user_files O f1 = (f1, Ok ()).
Proof.
  intros Hrm Hloc Hrun.
  assert (Hdone : migrated O f1); [|by split; [|apply migrated_is_fixed]].
  unfold migrate_user_files, user_files in Hrun. cbn [for_each] in Hrun.
  destruct (migrate_user_file O "user_config.json" f) as [g1 [e|[]]] eqn:E1;
    [discriminate Hrun|].
  destruct (migrate_user_file O "user_multinet.json" g1) as [g2 [e|[]]] eqn:E2;
    [discriminate Hrun|].
  destruct (migrate_user_file O "user_nvs.json" g2) as [g3 [e|[]]] eqn:E3;
    [discriminate Hrun|].
  injection Hrun as ->.
  pose proof (migrate_user_file_settles O "user_config.json" f g1 Hrm
                ltac:(cbn; discriminate) E1) as S1.
  pose proof (migrate_user_file_settles O "user_multinet.json" g1 g2 Hrm
                ltac:(cbn; discriminate) E2) as S2.
  pose proof (migrate_user_file_settles O "user_nvs.json" g2 f1 Hrm
                ltac:(cbn; discriminate) E3) as S3.
  intros name Hname.
  repeat (apply elem_of_cons in Hname as [->|Hname]).
  - rewrite !(migrate_user_file_local _ _ _ _ _ _ Hloc E3) by (cbn; first [discriminate | reflexivity]).
    rewrite !(migrate_user_file_local _ _ _ _ _ _ Hloc E2) by (cbn; first [discriminate | reflexivity]).
    exact S1.
  - rewrite !(migrate_user_file_local _ _ _ _ _ _ Hloc E3) by (cbn; first [discriminate | reflexivity]).
    exact S2.
  - exact S3.
  - by apply elem_of_nil in Hname.
Qed.

Lemma demo_fs_move_removes_source : move_removes_source demo_fs.
Proof.
  intros src dst f f' Hne Hmove. cbn in *. unfold demo_move in Hmove.
  destruct (f !! src) as [content|]; [|discriminate Hmove].
  injection Hmove as <-. rewrite lookup_insert_ne by done.
  by rewrite lookup_delete_eq.
Qed.

Lemma is_prefix_refl (p : string) : is_prefix p p = true.
Proof.
  induction p as [|a p IH]; [done|]. cbn. by rewrite Ascii.eqb_refl.
Qed.

Lemma demo_fs_move_is_local : move_is_local demo_fs.
Proof.
  intros src dst f f' r p Hmove Hsrc Hpre. cbn in *. unfold demo_move in Hmove.
  destruct (f !! src) as [content|]; [|by injection Hmove as <- _].
  injection Hmove as <- _.
  assert (dst ≠ p) by (intros ->; by rewrite is_prefix_refl in Hpre).
  rewrite lookup_insert_ne by done. by rewrite lookup_delete_ne.
Qed.

Lemma migrate_user_files_idempotent_witness :
  let f1 : gmap string string :=
    <[ "storage/user_config.json" := "{}" ]>
    (<[ "user_nvs.json" := "new" ]> {[ "storage/user_nvs.json" := "old" ]}) in
  migrate_user_files demo_fs demo_files = (f1, Ok ())
  ∧ migrated demo_fs f1
  ∧ migrate_user_files demo_fs f1 = (f1, Ok ()).
Proof.
  intros f1.
  assert (Hrun : migrate_user_files demo_fs demo_files = (f1, Ok ()))
    by (vm_compute; reflexivity).
  split; [exact Hrun|].
  exact (migrate_user_files_idempotent demo_fs demo_files f1
           demo_fs_move_removes_source demo_fs_move_is_local Hrun).
Defined.

(** ** Effects that precede an exception *)

(** X29. The membership test [in] also holds of a string that contains
    ["wake_start"] and of a list that has it as an element.  Such a message
    starts a wake session when none is held, and only then does the
    subscript raise [TypeError]: the session stays. *)
Theorem wake_start_in_non_dict B ws client data msg s :
  json_loads B data = Ok msg →
  py_in "wake_start" msg = Ok true →
  (∀ m, msg ≠ JObj m) →
  wake_session s = None →
  on_message B ws client data s
  = (with_fresh_session (add_log (debug_data data) s), Raise TypeError).
Proof.
  intros Hloads Hws Hnd Hnone.
  rewrite (on_message_wake_start _ _ _ _ _ _ Hloads Hws).
  unfold on_wake_start, mbind, M_bind.
  rewrite select_wake_session_run by (cbn; by rewrite Hnone).
  unfold current. cbn [wake_session add_log]. rewrite Hnone. cbn.
  unfold record_wake_event.
  destruct msg; try reflexivity. by destruct (Hnd m).
Qed.

Lemma wake_start_in_non_dict_witness :
  let s := initial_server (Ok ∅) in
  on_message more_backend 7 0 "'wake_start'" s
  = (with_fresh_session (add_log (debug_data "'wake_start'") s), Raise TypeError).
Proof.
  apply (wake_start_in_non_dict more_backend 7 0 _ (JStr "wake_start"));
    try (vm_compute; reflexivity).
  intros m. discriminate.
Defined.

(** X30. The three fields of a hello are applied one after the other.  A
    [hw_type] that is not a string raises [AttributeError] after the
    hostname has been written and before the MAC address is looked at: the
    registry keeps the new hostname and the former platform and MAC
    address. *)
Theorem hello_bad_hw_type B ws client data body v s r c :
  decodes_to_hello B data body →
  body !! "hw_type" = Some v →
  (∀ t, v ≠ JStr t) →
  holds ws r s c →
  ∃ s', on_message B ws client data s = (s', Raise AttributeError)
        ∧ holds ws r s'
            (mkClient (ua c)
               (from_option Some (hostname c) (body !! "hostname"))
               (platform c) (mac_addr c)).
Proof.
  intros (msg & Hloads & m & -> & Hws & Hwe & Hnd & Hcmd & Hbye & Hhello)
    Htype Hv Hc.
  unfold on_message, log_. rewrite bind_modify.
  next_test Hloads. next_test Hws. next_test Hwe. next_test Hnd.
  next_test Hcmd. next_test Hbye.
  rewrite (py_in_obj_Some _ _ _ Hhello), bind_lift_Ok. cbn beta iota.
  destruct (hello_hostname_run ws m body r Hhello
              (add_log (debug_data data) s) c Hc) as (s1 & Hrun & Hc1).
  exists s1. split; [|exact Hc1].
  unfold on_hello, mbind at 1, M_bind at 1. rewrite Hrun.
  unfold mbind at 1, M_bind at 1, hello_hw_type.
  rewrite !(py_getitem_obj _ _ _ Hhello), !bind_lift_Ok.
  rewrite (py_in_obj_Some _ _ _ Htype), bind_lift_Ok. cbn beta iota.
  rewrite bind_lift_Ok, (py_getitem_obj _ _ _ Htype), bind_lift_Ok.
  destruct v as [| | | |t| |]; try reflexivity. by destruct (Hv t).
Qed.

Lemma hello_bad_hw_type_witness :
  let s := (websocket_endpoint more_backend 7 None [] (initial_server (Ok ∅))).1 in
  let data := "{'hello': {'hostname': 'attic', 'hw_type': 7, 'mac_addr': [1,2,3,4,5,6]}}" in
  ∃ s', on_message more_backend 7 0 data s = (s', Raise AttributeError)
        ∧ holds 7 0 s' (mkClient None (Some (JStr "attic")) None None).
Proof.
  intros s data.
  set (body := <[ "hostname" := JStr "attic" ]>
                 (<[ "hw_type" := JInt 7 ]>
                    ({[ "mac_addr" := JList (JInt <$> [1; 2; 3; 4; 5; 6]) ]}
                       : gmap string json))).
  assert (Hdec : decodes_to_hello more_backend data body).
  { eexists. split; [vm_compute; reflexivity|].
    eexists. repeat split; vm_compute; reflexivity. }
  assert (Htype : body !! "hw_type" = Some (JInt 7)) by (vm_compute; reflexivity).
  assert (Hv : ∀ t, JInt 7 ≠ JStr t) by (intros t; discriminate).
  assert (Hc : holds 7 0 s (new_client None))
    by (split; vm_compute; reflexivity).
  exact (hello_bad_hw_type more_backend 7 0 data body (JInt 7) s 0
           (new_client None) Hdec Htype Hv Hc).
Defined.
